(** * ampy command line interface (ampy/cli.py)

    A shallow embedding of the click commands of [ampy/cli.py] and of the
    process around them (the [cli] group callback, the sub-command, the
    interpreter's exit handlers).

    The commands are thin: almost everything they do is a call into a
    collaborator ([ampy.pyboard.Pyboard], [ampy.files.Files], [ampy.util],
    the local operating system).  Those collaborators are not part of
    [cli.py]; they are taken as an interface ([Collaborators]) over an
    arbitrary world type, every call through that interface is recorded in a
    trace, and the theorems hold for every implementation of the interface.
    A concrete simulated board ([Sim]) is used to run the commands. *)

From Stdlib Require Import List String Ascii NArith ZArith Bool Lia Floats.
From Stdlib Require Import Strings.Byte.
Import ListNotations.

Set Implicit Arguments.

(** ** Python values *)

(** A Python [str] is a sequence of code points, a [bytes] a sequence of
    bytes. *)
Definition pystr := list N.
Definition bytes := list byte.

(** String literals of the source. *)
Definition str (s : string) : pystr :=
  List.map N_of_ascii (list_ascii_of_string s).

Definition pystr_eqb (a b : pystr) : bool :=
  if list_eq_dec N.eq_dec a b then true else false.

Lemma pystr_eqb_eq a b : pystr_eqb a b = true <-> a = b.
Proof.
  unfold pystr_eqb. destruct (list_eq_dec N.eq_dec a b); split; congruence.
Qed.

Lemma pystr_eqb_refl a : pystr_eqb a a = true.
Proof. now apply pystr_eqb_eq. Qed.

(** [s.join(parts)]. *)
Fixpoint str_join (s : pystr) (parts : list pystr) : pystr :=
  match parts with
  | [] => []
  | [c] => c
  | c :: rest => c ++ s ++ str_join s rest
  end.

(** What [click.echo] and the standard streams carry: text or raw bytes. *)
Inductive message :=
| Text (s : pystr)
| Raw (b : bytes).

(** *** [bytes.decode("utf-8")] with the default, strict, error handler *)

Module Utf8.

Definition cont (b : N) : bool := (128 <=? b)%N && (b <=? 191)%N.
Definition low6 (b : N) : N := N.land b 63.

  (** [None] stands for the [UnicodeDecodeError] of the strict decoder:
      truncated sequences, stray continuation bytes, overlong forms,
      surrogates and code points above U+10FFFF are all refused. *)
Fixpoint decode (bs : list N) : option pystr :=
    match bs with
    | [] => Some []
    | b0 :: r0 =>
      if (b0 <? 128)%N then option_map (cons b0) (decode r0)
      else if (194 <=? b0)%N && (b0 <=? 223)%N then
        match r0 with
        | b1 :: r1 =>
          if cont b1
          then option_map (cons (N.shiftl (N.land b0 31) 6 + low6 b1)%N) (decode r1)
          else None
        | _ => None
        end
      else if (224 <=? b0)%N && (b0 <=? 239)%N then
        match r0 with
        | b1 :: b2 :: r2 =>
          let lo := if (b0 =? 224)%N then 160%N else 128%N in
          let hi := if (b0 =? 237)%N then 159%N else 191%N in
          if (lo <=? b1)%N && (b1 <=? hi)%N && cont b2
          then option_map
                 (cons (N.shiftl (N.land b0 15) 12 + N.shiftl (low6 b1) 6 + low6 b2)%N)
                 (decode r2)
          else None
        | _ => None
        end
      else if (240 <=? b0)%N && (b0 <=? 244)%N then
        match r0 with
        | b1 :: b2 :: b3 :: r3 =>
          let lo := if (b0 =? 240)%N then 144%N else 128%N in
          let hi := if (b0 =? 244)%N then 143%N else 191%N in
          if (lo <=? b1)%N && (b1 <=? hi)%N && cont b2 && cont b3
          then option_map
                 (cons (N.shiftl (N.land b0 7) 18 + N.shiftl (low6 b1) 12
                        + N.shiftl (low6 b2) 6 + low6 b3)%N)
                 (decode r3)
          else None
        | _ => None
        end
      else None
    end.

End Utf8.

(** *** click's [strip_ansi]

    [re.sub] of the pattern [\033\[[;?0-9]*[a-zA-Z]] by the empty string,
    as one pass: [Escape] after an ESC, [Params p] after ESC [[] and the
    parameter characters [p]; what was held back is written out when the
    sequence does not end in a letter. *)

Module Ansi.

Inductive state :=
| Plain
| Escape
| Params (pending : pystr).

Definition is_param (c : N) : bool :=
  (c =? 59)%N || (c =? 63)%N || ((48 <=? c)%N && (c <=? 57)%N).

Definition is_letter (c : N) : bool :=
  ((97 <=? c)%N && (c <=? 122)%N) || ((65 <=? c)%N && (c <=? 90)%N).

Fixpoint strip_from (st : state) (s : pystr) : pystr :=
  match s with
  | [] =>
    match st with
    | Plain => []
    | Escape => [27%N]
    | Params p => 27%N :: 91%N :: p
    end
  | c :: r =>
    match st with
    | Plain =>
      if (c =? 27)%N then strip_from Escape r else c :: strip_from Plain r
    | Escape =>
      if (c =? 91)%N then strip_from (Params []) r
      else if (c =? 27)%N then 27%N :: strip_from Escape r
      else 27%N :: c :: strip_from Plain r
    | Params p =>
      if is_param c then strip_from (Params (p ++ [c])) r
      else if is_letter c then strip_from Plain r
      else if (c =? 27)%N then (27%N :: 91%N :: p) ++ strip_from Escape r
      else (27%N :: 91%N :: p) ++ c :: strip_from Plain r
    end
  end.

Definition strip_ansi (s : pystr) : pystr := strip_from Plain s.

(** Text without an ESC character is left as it is. *)
Lemma strip_ansi_plain s : ~ In 27%N s -> strip_ansi s = s.
Proof.
  unfold strip_ansi. induction s as [| c r IH]; intros Hn; [reflexivity |].
  simpl. destruct (N.eqb_spec c 27) as [-> | _].
  - exfalso. apply Hn. now left.
  - rewrite IH; [reflexivity |]. intros H. apply Hn. now right.
Qed.

End Ansi.

(** *** [repr] of a [bytes] object *)

Module BytesRepr.

Definition hexdigit (n : N) : N :=
    if (n <? 10)%N then (48 + n)%N else (87 + n)%N.

Definition quote_of (b : list N) : N :=
    if existsb (N.eqb 39) b && negb (existsb (N.eqb 34) b) then 34%N else 39%N.

Definition escape (q c : N) : pystr :=
    if (c =? q)%N || (c =? 92)%N then [92; c]%N
    else if (c =? 9)%N then str "\t"
    else if (c =? 10)%N then str "\n"
    else if (c =? 13)%N then str "\r"
    else if (c <? 32)%N || (127 <=? c)%N
         then [92; 120; hexdigit (c / 16); hexdigit (c mod 16)]%N
    else [c].

Definition repr (b : bytes) : pystr :=
    let ns := List.map Byte.to_N b in
    let q := quote_of ns in
    (98%N :: q :: List.flat_map (escape q) ns) ++ [q].

End BytesRepr.

Example repr_empty : BytesRepr.repr [] = str "b''".
Proof. reflexivity. Qed.

Example repr_mixed :
  BytesRepr.repr [x48; x69; x0a; x27; xff]
  = [98; 34; 72; 105; 92; 110; 39; 92; 120; 102; 102; 34]%N.
Proof. reflexivity. Qed.

Example decode_euro :
  Utf8.decode [226; 130; 172; 33]%N = Some [8364; 33]%N.
Proof. reflexivity. Qed.

Example decode_overlong : Utf8.decode [192; 128]%N = None.
Proof. reflexivity. Qed.

(** ** [posixpath] and [os.path]

    The path functions the commands call, after the standard library's
    [posixpath.py]; [os.path] is [posixpath] on the POSIX hosts this
    development covers.  The current directory is an argument. *)

Module Posixpath.

Definition sep : N := 47.
Definition curdir : pystr := str ".".
Definition pardir : pystr := str "..".

Definition is_empty (p : pystr) : bool :=
  match p with [] => true | _ => false end.

(** [p.startswith(sep)] and [p.endswith(sep)]. *)
Definition isabs (p : pystr) : bool :=
  match p with c :: _ => (c =? sep)%N | [] => false end.

Definition ends_with_sep (p : pystr) : bool :=
  match rev p with c :: _ => (c =? sep)%N | [] => false end.

(** [p.rfind(c)]: the highest index of [c], [-1] when there is none. *)
Fixpoint rfind (c : N) (p : pystr) : Z :=
  match p with
  | [] => (-1)%Z
  | x :: r =>
    let i := rfind c r in
    if (0 <=? i)%Z then (i + 1)%Z
    else if (x =? c)%N then 0%Z else (-1)%Z
  end.

(** [i = p.rfind(sep) + 1; return p[i:]] *)
Definition basename (p : pystr) : pystr :=
  skipn (Z.to_nat (rfind sep p + 1)) p.

(** One round of the loop of [join(a, *p)]. *)
Definition join2 (path b : pystr) : pystr :=
  if isabs b then b
  else if is_empty path || ends_with_sep path then path ++ b
  else path ++ sep :: b.

Definition join (a : pystr) (p : list pystr) : pystr := fold_left join2 p a.

(** [p.split(sep)] and [sep.join(comps)]. *)
Fixpoint split (p : pystr) : list pystr :=
  match p with
  | [] => [[]]
  | c :: r =>
    if (c =? sep)%N then [] :: split r
    else match split r with
         | h :: t => (c :: h) :: t
         | [] => [[c]]
         end
  end.

Fixpoint sep_join (comps : list pystr) : pystr :=
  match comps with
  | [] => []
  | [c] => c
  | c :: rest => c ++ sep :: sep_join rest
  end.

(** [normpath]: one slash or exactly two leading slashes are kept. *)
Definition initial_slashes (p : pystr) : nat :=
  match p with
  | a :: b :: c :: _ =>
    if (a =? sep)%N
    then (if (b =? sep)%N && negb (c =? sep)%N then 2 else 1)%nat
    else 0%nat
  | [a; b] =>
    if (a =? sep)%N then (if (b =? sep)%N then 2 else 1)%nat else 0%nat
  | [a] => if (a =? sep)%N then 1%nat else 0%nat
  | [] => 0%nat
  end.

Definition last_is_pardir (new_comps : list pystr) : bool :=
  match rev new_comps with
  | c :: _ => pystr_eqb c pardir
  | [] => false
  end.

Definition no_comps (new_comps : list pystr) : bool :=
  match new_comps with [] => true | _ => false end.

(** One round of the loop over [comps] in [normpath]. *)
Definition norm_step (init : nat) (new_comps : list pystr) (comp : pystr)
  : list pystr :=
  if is_empty comp || pystr_eqb comp curdir then new_comps
  else if negb (pystr_eqb comp pardir)
          || (Nat.eqb init 0 && no_comps new_comps)
          || (negb (no_comps new_comps) && last_is_pardir new_comps)
       then new_comps ++ [comp]
  else if negb (no_comps new_comps) then removelast new_comps
  else new_comps.

Definition normpath (path : pystr) : pystr :=
  if is_empty path then curdir
  else
    let init := initial_slashes path in
    let comps := fold_left (norm_step init) (split path) [] in
    let path' := repeat sep init ++ sep_join comps in
    if is_empty path' then curdir else path'.

(** [abspath], with [os.getcwd()] passed in. *)
Definition abspath (cwd path : pystr) : pystr :=
  normpath (if isabs path then path else join cwd [path]).

(** The length of [commonprefix([l1, l2])] for two lists of components. *)
Fixpoint common_len (l1 l2 : list pystr) : nat :=
  match l1, l2 with
  | a :: r1, b :: r2 => if pystr_eqb a b then S (common_len r1 r2) else 0%nat
  | _, _ => 0%nat
  end.

Definition nonempty_comps (p : pystr) : list pystr :=
  filter (fun x => negb (is_empty x)) (split p).

(** [relpath(path, start)]; [None] is its [ValueError] for an empty path. *)
Definition relpath (cwd path start : pystr) : option pystr :=
  if is_empty path then None
  else
    let start_list := nonempty_comps (abspath cwd start) in
    let path_list := nonempty_comps (abspath cwd path) in
    let i := common_len start_list path_list in
    let rel_list := repeat pardir (List.length start_list - i) ++ skipn i path_list in
    match rel_list with
    | [] => Some curdir
    | a :: p => Some (join a p)
    end.

End Posixpath.

Example normpath_dots :
  Posixpath.normpath (str "/home//user/./proj/../lib/") = str "/home/user/lib".
Proof. vm_compute. reflexivity. Qed.

Example normpath_two_slashes :
  Posixpath.normpath (str "//a/../..") = str "//".
Proof. vm_compute. reflexivity. Qed.

Example normpath_relative_up :
  Posixpath.normpath (str "a/../../b") = str "../b".
Proof. vm_compute. reflexivity. Qed.

Example abspath_trailing :
  Posixpath.abspath (str "/home/user") (str "lib/") = str "/home/user/lib".
Proof. vm_compute. reflexivity. Qed.

Example basename_abspath_dot :
  Posixpath.basename (Posixpath.abspath (str "/home/user") (str "."))
  = str "user".
Proof. vm_compute. reflexivity. Qed.

Example relpath_child :
  Posixpath.relpath (str "/w") (str "lib/sub/x") (str "lib") = Some (str "sub/x").
Proof. vm_compute. reflexivity. Qed.

Example relpath_self :
  Posixpath.relpath (str "/w") (str "lib") (str "lib") = Some (str ".").
Proof. vm_compute. reflexivity. Qed.

Example relpath_up :
  Posixpath.relpath (str "/w") (str "a") (str "b/c") = Some (str "../../a").
Proof. vm_compute. reflexivity. Qed.

(** ** Exceptions

    The classes [cli.py] names in its handlers, with the classes between
    them and [Exception].  [IOError] is Python 3's alias of [OSError];
    pyserial declares [SerialException] as a subclass of [IOError].
    Two classes stand outside [Exception], which [except Exception] does
    not catch: [KeyboardInterrupt], and [BaseException] for an error
    derived from it directly (upstream ampy declares its [PyboardError]
    that way).  [SystemExit], whose effect on the exit status depends on
    the code it carries, is not modelled. *)

Inductive exc_class :=
| BaseException
| KeyboardInterrupt
| Exception
| OSError
| FileNotFoundError
| SerialException
| DirectoryExistsError
| ValueError
| UnicodeDecodeError
| OtherError.

Definition IOError : exc_class := OSError.

(** The method resolution order of a class: itself, then its bases. *)
Definition mro (c : exc_class) : list exc_class :=
  match c with
  | BaseException => [BaseException]
  | KeyboardInterrupt => [KeyboardInterrupt; BaseException]
  | Exception => [Exception; BaseException]
  | OSError => [OSError; Exception; BaseException]
  | FileNotFoundError => [FileNotFoundError; OSError; Exception; BaseException]
  | SerialException => [SerialException; OSError; Exception; BaseException]
  | DirectoryExistsError => [DirectoryExistsError; Exception; BaseException]
  | ValueError => [ValueError; Exception; BaseException]
  | UnicodeDecodeError =>
    [UnicodeDecodeError; ValueError; Exception; BaseException]
  | OtherError => [OtherError; Exception; BaseException]
  end.

Definition exc_class_eqb (a b : exc_class) : bool :=
  match a, b with
  | BaseException, BaseException | KeyboardInterrupt, KeyboardInterrupt
  | Exception, Exception | OSError, OSError
  | FileNotFoundError, FileNotFoundError | SerialException, SerialException
  | DirectoryExistsError, DirectoryExistsError | ValueError, ValueError
  | UnicodeDecodeError, UnicodeDecodeError | OtherError, OtherError => true
  | _, _ => false
  end.

Record exn := { exn_class : exc_class; exn_msg : pystr }.

(** [isinstance(e, c)], the test an [except c:] clause makes. *)
Definition isinstance (e : exn) (c : exc_class) : bool :=
  existsb (exc_class_eqb c) (mro (exn_class e)).

(** The classes that [except Exception] lets through. *)
Lemma isinstance_Exception e :
  isinstance e Exception = false
  <-> exn_class e = BaseException \/ exn_class e = KeyboardInterrupt.
Proof.
  destruct e as [[] m]; unfold isinstance; simpl; split;
    try discriminate; try (intros [H | H]; discriminate H); auto.
Qed.

Inductive result (A : Type) :=
| Ok (a : A)
| Raise (e : exn).
Arguments Ok {A} a.
Arguments Raise {A} e.

(** ** Calls into the collaborators, and what a process run shows *)

Inductive call :=
| Pyboard_init (port : pystr) (baudrate : Z) (rawdelay : float)
| Pyboard_close
| Pyboard_enter_raw_repl
| Pyboard_exit_raw_repl
| Pyboard_exec (code : pystr)
| Pyboard_eval (expression : pystr)
| Files_get (remote_file : pystr)
| Files_mkdir (directory : pystr) (exists_okay : option bool)
| Files_ls (directory : pystr) (long_format recursive : bool)
| Files_put (remote_file : pystr) (data : bytes)
| Files_rm (remote_file : pystr)
| Files_rmdir (remote_folder : pystr) (missing_okay : bool)
| Files_run (local_file : pystr) (wait_output : bool)
| Util_find (name : pystr)
| Util_invoke_repl (name path : pystr)
| Open_read (path : pystr)
| File_write (name : pystr) (data : bytes)
| Engine_submit (code : bytes)
| Engine_follow.

(** [Traceback e] stands for what the runtime writes on the error stream
    for an exception [e] that nothing caught: the interpreter's traceback
    or, for a [KeyboardInterrupt] leaving a command, click's [Aborted!]. *)
Inductive event :=
| Called (c : call)
| Stdout (s : pystr)
| Stderr (m : message)
| Traceback (e : exn).

(** The collaborators of [cli.py]: what each call does to the world and
    what it returns or raises.  [None] for an optional argument means the
    caller did not pass it. *)
Class Collaborators (W : Type) := {
  (* ampy.pyboard.Pyboard *)
  o_Pyboard : pystr -> Z -> float -> W -> W * result unit;
  o_close : W -> W * result unit;
  o_enter_raw_repl : W -> W * result unit;
  o_exit_raw_repl : W -> W * result unit;
  o_exec_ : pystr -> W -> W * result bytes;
  o_eval : pystr -> W -> W * result bytes;
  is_telnet : W -> bool;
  device : W -> pystr;
  (* ampy.files.Files *)
  o_get : pystr -> W -> W * result bytes;
  o_mkdir : pystr -> option bool -> W -> W * result unit;
  o_ls : pystr -> bool -> bool -> W -> W * result (list pystr);
  o_put : pystr -> bytes -> W -> W * result unit;
  o_rm : pystr -> W -> W * result unit;
  o_rmdir : pystr -> bool -> W -> W * result unit;
  o_run : pystr -> bool -> W -> W * result (option bytes);
  (* the protocol engine under ampy.files.Files.run *)
  o_submit : bytes -> W -> W * result unit;
  o_follow : W -> W * result bytes;
  (* ampy.util, ampy.consts, ampy.colors, textwrap *)
  windows_full_port_name : pystr -> pystr;
  o_find : pystr -> W -> W * result pystr;
  o_invoke_repl : pystr -> pystr -> W -> W * result unit;
  SUPPORTED_REPL : list pystr;
  red : pystr -> option bool -> pystr;
  bold : pystr -> pystr;
  indent : pystr -> pystr -> pystr;
  (* the local machine *)
  platform_system : W -> pystr;
  getcwd : W -> pystr;
  isdir : pystr -> W -> bool;
  walk : pystr -> W -> list (pystr * list pystr * list pystr);
  o_open_read : pystr -> W -> W * result bytes;
  o_write : pystr -> bytes -> W -> W * result unit;
  (* click: whether text echoed to the error stream loses its ANSI escape
     sequences, as it does when that stream is not a terminal *)
  stderr_strips_ansi : W -> bool
}.

(** The Raw-Mode Session State of the spec's data model. *)
Inductive session_state := Unknown | Friendly | RawMode | RawPasteSupported.

(** The functions registered with [atexit]; [cli.py] registers one. *)
Inductive exitfunc := close_hook.

(** The mode strings of the [reset] command's flags. *)
Inductive reset_mode := BOOTLOADER | NORMAL | SOFT | SAFE_MODE.

Definition mode_str (m : reset_mode) : pystr :=
  match m with
  | BOOTLOADER => str "BOOTLOADER"
  | NORMAL => str "NORMAL"
  | SOFT => str "SOFT"
  | SAFE_MODE => str "SAFE_MODE"
  end.

(** [repr] of a mode string: letters and underscores between single
    quotes. *)
Definition mode_repr (m : reset_mode) : pystr :=
  str "'" ++ mode_str m ++ str "'".

(** ** The process monad: world and [atexit] registry, trace, exceptions *)

Section Cli.

Context {W : Type} {C : Collaborators W}.

Record pstate := { world : W; exitfuncs : list exitfunc }.

Definition M (A : Type) : Type := pstate -> pstate * list event * result A.

Definition ret {A} (a : A) : M A := fun s => (s, [], Ok a).

Definition raise {A} (e : exn) : M A := fun s => (s, [], Raise e).

Definition bind {A B} (m : M A) (k : A -> M B) : M B :=
  fun s =>
    match m s with
    | (s1, t1, Ok a) =>
      match k a s1 with
      | (s2, t2, r) => (s2, t1 ++ t2, r)
      end
    | (s1, t1, Raise e) => (s1, t1, Raise e)
    end.

(** [try: body / except cls: handler]. *)
Definition try_except {A} (body : M A) (cls : exc_class) (handler : exn -> M A)
  : M A :=
  fun s =>
    match body s with
    | (s1, t1, Raise e) =>
      if isinstance e cls
      then match handler e s1 with
           | (s2, t2, r) => (s2, t1 ++ t2, r)
           end
      else (s1, t1, Raise e)
    | done => done
    end.

(** A call into a collaborator: recorded, then answered by the world. *)
Definition invoke {A} (c : call) (o : W -> W * result A) : M A :=
  fun s =>
    match o (world s) with
    | (w', r) => ({| world := w'; exitfuncs := exitfuncs s |}, [Called c], r)
    end.

Definition ask {A} (f : W -> A) : M A := fun s => (s, [], Ok (f (world s))).

Definition emit (e : event) : M unit := fun s => (s, [e], Ok tt).

(** [atexit.register(f)]: handlers run last registered first. *)
Definition atexit_register (f : exitfunc) : M unit :=
  fun s => ({| world := world s; exitfuncs := f :: exitfuncs s |}, [], Ok tt).

End Cli.

Arguments pstate W : clear implicits.
Arguments M W A : clear implicits.

Declare Scope cli_scope.
Delimit Scope cli_scope with cli.
Notation "x <- m ;; k" := (bind m (fun x => k))
  (at level 61, m at next level, right associativity) : cli_scope.
Notation "m ;; k" := (bind m (fun _ => k))
  (at level 61, right associativity) : cli_scope.
Local Open Scope cli_scope.

Definition state_of {W A} (x : pstate W * list event * result A) : pstate W :=
  fst (fst x).
Definition trace_of {W A} (x : pstate W * list event * result A) : list event :=
  snd (fst x).
Definition result_of {W A} (x : pstate W * list event * result A) : result A :=
  snd x.

(** ** Python built-ins the commands use *)

Section Builtins.

Context {W : Type} {C : Collaborators W}.

Definition newline : pystr := [10%N].

(** [print(a)], [print(a, b)] and [print(a, end=...)] write to standard
    output. *)
Definition print (a : pystr) : M W unit := emit (Stdout (a ++ newline)).
Definition print2 (a b : pystr) : M W unit :=
  emit (Stdout (a ++ str " " ++ b ++ newline)).
Definition print_end (a e : pystr) : M W unit := emit (Stdout (a ++ e)).

(** What [click.echo] writes for a text: the text as it is, or without
    its ANSI escape sequences when the stream strips them. *)
Definition echo_text (strips : bool) (out : pystr) : pystr :=
  if strips then Ansi.strip_ansi out else out.

(** [click.echo(message, err=True)]: the message and a newline, on the
    error stream; bytes go out as bytes, untouched. *)
Definition click_echo_err (m : message) : M W unit :=
  match m with
  | Text s =>
    strips <- ask stderr_strips_ansi ;;
    emit (Stderr (Text (echo_text strips (s ++ newline))))
  | Raw b => emit (Stderr (Raw (b ++ [x0a])))
  end.

(** [contents.decode("utf-8")]; the text of the error is not modelled. *)
Definition decode_utf8 (b : bytes) : M W pystr :=
  match Utf8.decode (List.map Byte.to_N b) with
  | Some s => ret s
  | None => raise {| exn_class := UnicodeDecodeError; exn_msg := str "utf-8" |}
  end.

(** Truthiness of a [bytes] value. *)
Definition truthy (b : bytes) : bool :=
  match b with [] => false | _ => true end.

(** ** The collaborators' methods, as the commands call them *)

Definition Pyboard (port : pystr) (baud : Z) (delay : float) : M W unit :=
  invoke (Pyboard_init port baud delay) (o_Pyboard port baud delay).
Definition board_close : M W unit := invoke Pyboard_close o_close.
Definition enter_raw_repl : M W unit :=
  invoke Pyboard_enter_raw_repl o_enter_raw_repl.
Definition exit_raw_repl : M W unit :=
  invoke Pyboard_exit_raw_repl o_exit_raw_repl.
Definition exec_ (code : pystr) : M W bytes :=
  invoke (Pyboard_exec code) (o_exec_ code).
Definition eval (expression : pystr) : M W bytes :=
  invoke (Pyboard_eval expression) (o_eval expression).

Definition files_get (remote_file : pystr) : M W bytes :=
  invoke (Files_get remote_file) (o_get remote_file).
Definition files_mkdir (directory : pystr) (exists_okay : option bool)
  : M W unit :=
  invoke (Files_mkdir directory exists_okay) (o_mkdir directory exists_okay).
Definition files_ls (directory : pystr) (long_format recursive : bool)
  : M W (list pystr) :=
  invoke (Files_ls directory long_format recursive)
         (o_ls directory long_format recursive).
Definition files_put (remote_file : pystr) (data : bytes) : M W unit :=
  invoke (Files_put remote_file data) (o_put remote_file data).
Definition files_rm (remote_file : pystr) : M W unit :=
  invoke (Files_rm remote_file) (o_rm remote_file).
Definition files_rmdir (remote_folder : pystr) (missing_okay : bool)
  : M W unit :=
  invoke (Files_rmdir remote_folder missing_okay)
         (o_rmdir remote_folder missing_okay).
Definition files_run (local_file : pystr) (wait_output : bool)
  : M W (option bytes) :=
  invoke (Files_run local_file wait_output) (o_run local_file wait_output).

Definition util_find (name : pystr) : M W pystr :=
  invoke (Util_find name) (o_find name).
Definition util_invoke_repl (name path : pystr) : M W unit :=
  invoke (Util_invoke_repl name path) (o_invoke_repl name path).

(** [open(path, "rb")] followed by [read()] on it. *)
Definition open_read (path : pystr) : M W bytes :=
  invoke (Open_read path) (o_open_read path).
(** [write] on a [click.File("wb")] argument, named by its path. *)
Definition file_write (name : pystr) (data : bytes) : M W unit :=
  invoke (File_write name data) (o_write name data).

End Builtins.

(** ** The commands of [cli.py] *)

Section Commands.

Context {W : Type} {C : Collaborators W}.

(** The function [close] that [cli] registers with [atexit]. *)
Definition close : M W unit :=
  try_except board_close Exception (fun _ => ret tt).

(** The group callback [cli(ctx, port, baud, delay)]. *)
Definition cli (port : pystr) (baud : Z) (delay : float) : M W unit :=
  system <- ask platform_system ;;
  let port := if pystr_eqb system (str "Windows")
              then windows_full_port_name port else port in
  Pyboard port baud delay ;;
  atexit_register close_hook.

Definition get (remote_file : pystr) (local_file : option pystr) : M W unit :=
  contents <- files_get remote_file ;;
  match local_file with
  | None => text <- decode_utf8 contents ;; print text
  | Some f => file_write f contents
  end.

Definition mkdir (directory : pystr) (exists_okay : bool) : M W unit :=
  files_mkdir directory (Some exists_okay).

Fixpoint print_each (fs : list pystr) : M W unit :=
  match fs with
  | [] => ret tt
  | f :: rest => print f ;; print_each rest
  end.

Definition ls (directory : pystr) (long_format recursive : bool) : M W unit :=
  fs <- files_ls directory long_format recursive ;;
  print_each fs.

(** The inner loop of a directory [put]: [for filename in child_files]. *)
Fixpoint put_files (parent remote_parent : pystr) (child_files : list pystr)
  : M W unit :=
  match child_files with
  | [] => ret tt
  | filename :: rest =>
    data <- open_read (Posixpath.join parent [filename]) ;;
    files_put (Posixpath.join remote_parent [filename]) data ;;
    put_files parent remote_parent rest
  end.

Definition relpath (cwd path start : pystr) : M W pystr :=
  match Posixpath.relpath cwd path start with
  | Some p => ret p
  | None => raise {| exn_class := ValueError;
                     exn_msg := str "no path specified" |}
  end.

(** The outer loop: [for parent, child_dirs, child_files in os.walk(local)]. *)
Fixpoint put_walk (local remote : pystr)
         (entries : list (pystr * list pystr * list pystr)) : M W unit :=
  match entries with
  | [] => ret tt
  | (parent, child_dirs, child_files) :: rest =>
    cwd <- ask getcwd ;;
    rel <- relpath cwd parent local ;;
    let remote_parent :=
        Posixpath.normpath (Posixpath.join remote [rel]) in
    try_except
      (files_mkdir remote_parent None ;;
       put_files parent remote_parent child_files)
      DirectoryExistsError
      (fun _ => ret tt) ;;
    put_walk local remote rest
  end.

(** [put] once [remote] is known. *)
Definition put_to (local remote : pystr) : M W unit :=
  is_dir <- ask (isdir local) ;;
  if is_dir : bool then
    entries <- ask (walk local) ;;
    put_walk local remote entries
  else
    data <- open_read local ;;
    files_put remote data.

Definition put (local : pystr) (remote : option pystr) : M W unit :=
  match remote with
  | None =>
    cwd <- ask getcwd ;;
    put_to local (Posixpath.basename (Posixpath.abspath cwd local))
  | Some r => put_to local r
  end.

Definition rm (remote_file : pystr) : M W unit := files_rm remote_file.

Definition rmdir (remote_folder : pystr) (missing_okay : bool) : M W unit :=
  files_rmdir remote_folder missing_okay.

(** [run], over the [run] method of the files layer it is given. *)
Definition run_using (board_files_run : pystr -> bool -> M W (option bytes))
           (local_file : pystr) (no_output : bool) : M W unit :=
  try_except
    (output <- board_files_run local_file (negb no_output) ;;
     match output with
     | Some o => text <- decode_utf8 o ;; print_end text []
     | None => ret tt
     end)
    IOError
    (fun _ =>
       click_echo_err
         (Text (str "Failed to find or read input file: " ++ local_file))).

Definition run : pystr -> bool -> M W unit := run_using files_run.

(** The program text [reset] sends before asking for the reset. *)
Definition reset_helpers : pystr := str
"if 1:
        def on_next_reset(x):
            try:
                import microcontroller
            except:
                if x == 'NORMAL': return ''
                return 'Reset mode only supported on CircuitPython'
            try:
                microcontroller.on_next_reset(getattr(microcontroller.RunMode, x))
            except ValueError as e:
                return str(e)
            return ''
        def reset():
            try:
                import microcontroller
            except:
                import machine as microcontroller
            microcontroller.reset()
    ".

Definition reset (mode : reset_mode) : M W unit :=
  enter_raw_repl ;;
  match mode with
  | SOFT => exit_raw_repl
  | _ =>
    exec_ reset_helpers ;;
    r <- eval (str "on_next_reset(" ++ mode_repr mode ++ str ")") ;;
    print2 (str "here we are") (BytesRepr.repr r) ;;
    if truthy r then click_echo_err (Raw r)
    else
      try_except (exec_ (str "reset()") ;; ret tt)
                 SerialException
                 (fun _ => ret tt)
  end.

(** The search [for name in SUPPORTED_REPL] of [repl]: [true] when a
    terminal was found and invoked, which returns from [repl]. *)
Fixpoint repl_search (names : list pystr) : M W bool :=
  match names with
  | [] => ret false
  | name :: rest =>
    found <- try_except (path <- util_find name ;; ret (Some path))
                        FileNotFoundError
                        (fun _ => ret None) ;;
    match found with
    | Some path => util_invoke_repl name path ;; ret true
    | None => repl_search rest
    end
  end.

Definition repl_no_terminal : M W unit :=
  print (bold (red (str "Couldn't find a suitable terminal emulator program to launch!") None)) ;;
  print (newline ++ str "ampy can invoke one of the following terminal programs:") ;;
  print (indent (str_join newline SUPPORTED_REPL) (str "  - ")) ;;
  print (newline ++ str "If you want your favourite terminal program added to this list,"
         ++ newline ++ str "please raise an issue @ http://github.com/pycampers/ampy").

Definition repl (terminal : option pystr) : M W unit :=
  match terminal with
  | None =>
    telnet <- ask is_telnet ;;
    if telnet : bool then
      path <- util_find (str "telnet") ;;
      util_invoke_repl (str "telet") path
    else
      invoked <- repl_search SUPPORTED_REPL ;;
      if invoked : bool then ret tt else repl_no_terminal
  | Some terminal =>
    if existsb (pystr_eqb terminal) SUPPORTED_REPL then
      telnet <- ask is_telnet ;;
      dev <- ask device ;;
      (if telnet && negb (pystr_eqb terminal (str "telnet"))
       then print (red (str "The port you provided (`" ++ dev
                        ++ str "`) looks like an IP address."
                        ++ str "You must use the `telnet` terminal to open this device, not `"
                        ++ terminal ++ str "`")
                       (Some true))
       else ret tt) ;;
      path <- util_find terminal ;;
      util_invoke_repl terminal path ;;
      repl_no_terminal
    else repl_no_terminal
  end.

(** ** A process: [ampy --port ... <command> ...] *)

(** A parsed command line; click's parsing is outside the model. *)
Inductive command :=
| Cmd_get (remote_file : pystr) (local_file : option pystr)
| Cmd_mkdir (directory : pystr) (exists_okay : bool)
| Cmd_ls (directory : pystr) (long_format recursive : bool)
| Cmd_put (local : pystr) (remote : option pystr)
| Cmd_rm (remote_file : pystr)
| Cmd_rmdir (remote_folder : pystr) (missing_okay : bool)
| Cmd_run (local_file : pystr) (no_output : bool)
| Cmd_reset (mode : reset_mode)
| Cmd_repl (terminal : option pystr).

Definition dispatch (cmd : command) : M W unit :=
  match cmd with
  | Cmd_get remote_file local_file => get remote_file local_file
  | Cmd_mkdir directory exists_okay => mkdir directory exists_okay
  | Cmd_ls directory long_format recursive => ls directory long_format recursive
  | Cmd_put local remote => put local remote
  | Cmd_rm remote_file => rm remote_file
  | Cmd_rmdir remote_folder missing_okay => rmdir remote_folder missing_okay
  | Cmd_run local_file no_output => run local_file no_output
  | Cmd_reset mode => reset mode
  | Cmd_repl terminal => repl terminal
  end.

Definition run_exitfunc (f : exitfunc) : M W unit :=
  match f with close_hook => close end.

(** The interpreter's [atexit] pass: every handler runs; an exception
    leaving a handler is reported on the error stream and dropped. *)
Fixpoint run_exitfuncs (fs : list exitfunc) (s : pstate W)
  : pstate W * list event :=
  match fs with
  | [] => (s, [])
  | f :: rest =>
    match run_exitfunc f s with
    | (s1, t1, r) =>
      let report := match r with Raise e => [Traceback e] | Ok _ => [] end in
      match run_exitfuncs rest s1 with
      | (s2, t2) => (s2, t1 ++ report ++ t2)
      end
    end
  end.

(** What one run of the program shows.  [scope_trace]: from the entry of
    [cli] until control leaves the command, by return or by exception.
    [exit_trace]: interpreter shutdown, that is the traceback of an
    uncaught exception and then the [atexit] handlers.  [exit_status]: 0
    after a return, 1 after an uncaught exception. *)
Record process := {
  scope_trace : list event;
  scope_result : result unit;
  exit_trace : list event;
  exit_status : Z;
  final_world : W
}.

Definition ampy (port : pystr) (baud : Z) (delay : float) (cmd : command)
           (w : W) : process :=
  match (cli port baud delay ;; dispatch cmd) {| world := w; exitfuncs := [] |} with
  | (s1, t1, r) =>
    match run_exitfuncs (exitfuncs s1) s1 with
    | (s2, t2) =>
      {| scope_trace := t1;
         scope_result := r;
         exit_trace := match r with Raise e => [Traceback e] | Ok _ => [] end ++ t2;
         exit_status := match r with Raise _ => 1%Z | Ok _ => 0%Z end;
         final_world := world s2 |}
    end
  end.

(** ** The files layer's [run]

    Modelled from the spec: [ampy.files.Files.run], whose module is not
    among the sources.  Section 4.2: it reads a local script, uploads its
    text as one submission over raw mode, and if [wait_for_output] is false
    returns immediately after submission without reading stdout/stderr, with
    no captured output; otherwise it reads the output and returns it. *)
Definition Files_run_spec (local_path : pystr) (wait_for_output : bool)
  : M W (option bytes) :=
  emit (Called (Files_run local_path wait_for_output)) ;;
  script <- open_read local_path ;;
  enter_raw_repl ;;
  invoke (Engine_submit script) (o_submit script) ;;
  if wait_for_output then
    out <- invoke Engine_follow o_follow ;;
    ret (Some out)
  else ret None.

End Commands.

(** ** A simulated board

    A small executable implementation of the collaborators, used to run the
    commands on concrete inputs: a board with a transport that drops on
    [reset()], a remote and a local file store. *)

Module Sim.

Record board := {
  transport_open : bool;
  session : session_state;
  reply : bytes;
  remote_dirs : list pystr;
  remote_files : list (pystr * bytes);
  local_files : list (pystr * bytes);
  local_tree : list (pystr * list pystr * list pystr);
  cwd : pystr
}.

Definition lookup {A} (k : pystr) (l : list (pystr * A)) : option A :=
  option_map snd (find (fun kv => pystr_eqb k (fst kv)) l).

Definition disconnected : exn :=
  {| exn_class := SerialException; exn_msg := str "device disconnected" |}.

Definition missing (p : pystr) : exn :=
  {| exn_class := FileNotFoundError; exn_msg := p |}.

Definition with_transport (b : board) (o : bool) (st : session_state) : board :=
  {| transport_open := o; session := st; reply := reply b;
     remote_dirs := remote_dirs b; remote_files := remote_files b;
     local_files := local_files b; local_tree := local_tree b; cwd := cwd b |}.

Definition with_remote (b : board) (ds : list pystr)
           (fs : list (pystr * bytes)) : board :=
  {| transport_open := transport_open b; session := session b; reply := reply b;
     remote_dirs := ds; remote_files := fs;
     local_files := local_files b; local_tree := local_tree b; cwd := cwd b |}.

Definition with_local (b : board) (fs : list (pystr * bytes)) : board :=
  {| transport_open := transport_open b; session := session b; reply := reply b;
     remote_dirs := remote_dirs b; remote_files := remote_files b;
     local_files := fs; local_tree := local_tree b; cwd := cwd b |}.

(** An operation that needs the transport. *)
Definition online {A} (b : board) (k : board * result A) : board * result A :=
  if transport_open b then k else (b, Raise disconnected).

Definition sim_exec (code : pystr) (b : board) : board * result bytes :=
  online b
    (if pystr_eqb code (str "reset()")
     then (with_transport b false Unknown, Raise disconnected)
     else (b, Ok [])).

Definition sim_mkdir (d : pystr) (exists_okay : option bool) (b : board)
  : board * result unit :=
  online b
    (if existsb (pystr_eqb d) (remote_dirs b)
     then match exists_okay with
          | Some true => (b, Ok tt)
          | _ => (b, Raise {| exn_class := DirectoryExistsError; exn_msg := d |})
          end
     else (with_remote b (d :: remote_dirs b) (remote_files b), Ok tt)).

Definition sim_get (p : pystr) (b : board) : board * result bytes :=
  online b
    (match lookup p (remote_files b) with
     | Some data => (b, Ok data)
     | None => (b, Raise {| exn_class := OtherError; exn_msg := p |})
     end).

Definition sim_run (p : pystr) (wait_output : bool) (b : board)
  : board * result (option bytes) :=
  match lookup p (local_files b) with
  | None => (b, Raise (missing p))
  | Some _ => online b (b, Ok (if wait_output then Some (reply b) else None))
  end.

Definition sim_open_read (p : pystr) (b : board) : board * result bytes :=
  match lookup p (local_files b) with
  | None => (b, Raise (missing p))
  | Some data => (b, Ok data)
  end.

#[global] Instance collaborators : Collaborators board := {|
  o_Pyboard := fun _ _ _ b => (with_transport b true Unknown, Ok tt);
  o_close := fun b => online b (with_transport b false (session b), Ok tt);
  o_enter_raw_repl := fun b => online b (with_transport b true RawMode, Ok tt);
  o_exit_raw_repl := fun b => online b (with_transport b true Friendly, Ok tt);
  o_exec_ := sim_exec;
  o_eval := fun _ b => online b (b, Ok (reply b));
  is_telnet := fun _ => false;
  device := fun _ => str "/dev/ttyUSB0";
  o_get := sim_get;
  o_mkdir := sim_mkdir;
  o_ls := fun _ _ _ b => online b (b, Ok (List.map fst (remote_files b)));
  o_put := fun p data b =>
    online b (with_remote b (remote_dirs b) ((p, data) :: remote_files b), Ok tt);
  o_rm := fun p b =>
    online b (with_remote b (remote_dirs b)
                (filter (fun kv => negb (pystr_eqb p (fst kv))) (remote_files b)),
              Ok tt);
  o_rmdir := fun p _ b =>
    online b (with_remote b
                (filter (fun d => negb (pystr_eqb p d)) (remote_dirs b))
                (remote_files b),
              Ok tt);
  o_run := sim_run;
  o_submit := fun _ b => online b (b, Ok tt);
  o_follow := fun b => online b (b, Ok (reply b));
  windows_full_port_name := fun p => p;
  o_find := fun name b => (b, Raise (missing name));
  o_invoke_repl := fun _ _ b => (b, Ok tt);
  SUPPORTED_REPL := [str "picocom"; str "minicom"];
  red := fun s _ => s;
  bold := fun s => s;
  indent := fun text prefix => prefix ++ text;
  platform_system := fun _ => str "Linux";
  getcwd := cwd;
  isdir := fun p b =>
    existsb (fun e => pystr_eqb p (fst (fst e))) (local_tree b);
  walk := fun _ b => local_tree b;
  o_open_read := sim_open_read;
  o_write := fun name data b => (with_local b ((name, data) :: local_files b), Ok tt);
  stderr_strips_ansi := fun _ => true
|}.

(** A board with [boot.py] on it and a folder [lib] holding [a.py] on the
    local side; the directory [lib] already exists on the board. *)
Definition board0 : board := {|
  transport_open := false;
  session := Unknown;
  reply := [];
  remote_dirs := [str "lib"];
  remote_files := [(str "boot.py", [x68; x69])];
  local_files := [(str "main.py", [x31]); (str "lib/a.py", [x32])];
  local_tree := [(str "lib", [], [str "a.py"])];
  cwd := str "/home/user"
|}.

Definition start (b : board) : pstate board :=
  {| world := b; exitfuncs := [] |}.

Definition opened (b : board) : board := with_transport b true Unknown.

End Sim.

(** ** Reasoning about runs *)

Section Laws.

Context {W : Type} {C : Collaborators W}.

Lemma bind_Ok A B (m : M W A) (k : A -> M W B) s s1 t1 a s2 t2 r :
  m s = (s1, t1, Ok a) -> k a s1 = (s2, t2, r) ->
  bind m k s = (s2, t1 ++ t2, r).
Proof. intros Hm Hk. unfold bind. now rewrite Hm, Hk. Qed.

Lemma bind_Raise A B (m : M W A) (k : A -> M W B) s s1 t1 e :
  m s = (s1, t1, Raise e) -> bind m k s = (s1, t1, Raise e).
Proof. intros Hm. unfold bind. now rewrite Hm. Qed.

Lemma invoke_eq A (c : call) (o : W -> W * result A) s w' r :
  o (world s) = (w', r) ->
  invoke c o s = ({| world := w'; exitfuncs := exitfuncs s |}, [Called c], r).
Proof. intros H. unfold invoke. now rewrite H. Qed.

Lemma try_except_caught A (body : M W A) cls h s s1 t1 e s2 t2 r :
  body s = (s1, t1, Raise e) -> isinstance e cls = true ->
  h e s1 = (s2, t2, r) ->
  try_except body cls h s = (s2, t1 ++ t2, r).
Proof. intros Hb Hi Hh. unfold try_except. now rewrite Hb, Hi, Hh. Qed.

Lemma try_except_Ok A (body : M W A) cls h s s1 t1 a :
  body s = (s1, t1, Ok a) -> try_except body cls h s = (s1, t1, Ok a).
Proof. intros Hb. unfold try_except. now rewrite Hb. Qed.

(** A computation is [tame] for [P] when every event it leaves satisfies
    [P] and it registers no exit handler. *)
Definition tame {A} (P : event -> Prop) (m : M W A) : Prop :=
  forall s, Forall P (trace_of (m s))
            /\ exitfuncs (state_of (m s)) = exitfuncs s.

Lemma tame_ret A P (a : A) : tame P (ret a).
Proof. intros s. split; [constructor | reflexivity]. Qed.

Lemma tame_raise A P e : tame P (@raise W A e).
Proof. intros s. split; [constructor | reflexivity]. Qed.

Lemma tame_ask A P (f : W -> A) : tame P (ask f).
Proof. intros s. split; [constructor | reflexivity]. Qed.

Lemma tame_emit (P : event -> Prop) e : P e -> tame P (emit e).
Proof. intros H s. split; [repeat constructor; exact H | reflexivity]. Qed.

Lemma tame_invoke A (P : event -> Prop) c (o : W -> W * result A) :
  P (Called c) -> tame P (invoke c o).
Proof.
  intros H s. unfold invoke, trace_of, state_of.
  destruct (o (world s)) as [w' r]. simpl.
  split; [repeat constructor; exact H | reflexivity].
Qed.

Lemma tame_bind A B P (m : M W A) (k : A -> M W B) :
  tame P m -> (forall a, tame P (k a)) -> tame P (bind m k).
Proof.
  intros Hm Hk s. unfold bind, trace_of, state_of.
  destruct (Hm s) as [Ht Hs]. unfold trace_of, state_of in Ht, Hs.
  destruct (m s) as [[s1 t1] [a | e]]; simpl in *.
  - destruct (Hk a s1) as [Ht2 Hs2]. unfold trace_of, state_of in Ht2, Hs2.
    destruct (k a s1) as [[s2 t2] r]. simpl in *.
    split; [apply Forall_app; now split | congruence].
  - now split.
Qed.

Lemma tame_try_except A P (body : M W A) cls h :
  tame P body -> (forall e, tame P (h e)) -> tame P (try_except body cls h).
Proof.
  intros Hb Hh s. unfold try_except, trace_of, state_of.
  destruct (Hb s) as [Ht Hs]. unfold trace_of, state_of in Ht, Hs.
  destruct (body s) as [[s1 t1] [a | e]]; simpl in *.
  - now split.
  - destruct (isinstance e cls); simpl; [| now split].
    destruct (Hh e s1) as [Ht2 Hs2]. unfold trace_of, state_of in Ht2, Hs2.
    destruct (h e s1) as [[s2 t2] r]. simpl in *.
    split; [apply Forall_app; now split | congruence].
Qed.

End Laws.

(** Breaks a computation into its primitive steps; what is left are the
    side conditions on single events. *)
Ltac tame_steps :=
  repeat first
    [ apply tame_ret | apply tame_raise | apply tame_ask
    | apply tame_bind; [| intros ?]
    | apply tame_try_except; [| intros ?]
    | apply tame_invoke | apply tame_emit
    | match goal with
      | |- tame _ (if ?b then _ else _) => destruct b
      | |- tame _ (match ?x with _ => _ end) => destruct x
      end ].

Section CommandsAreTame.

Context {W : Type} {C : Collaborators W}.

(** Nothing but the exit handler closes the board. *)
Definition not_close (e : event) : Prop := e <> Called Pyboard_close.

Lemma tame_print_each fs : tame (W:=W) not_close (print_each fs).
Proof.
  induction fs as [| f rest IH]; simpl; [apply tame_ret |].
  unfold print. tame_steps; try discriminate. exact IH.
Qed.

Lemma tame_put_files parent remote_parent fs :
  tame (W:=W) not_close (put_files parent remote_parent fs).
Proof.
  induction fs as [| f rest IH]; simpl; [apply tame_ret |].
  unfold open_read, files_put. tame_steps; try discriminate. exact IH.
Qed.

Lemma tame_put_walk local remote entries :
  tame (W:=W) not_close (put_walk local remote entries).
Proof.
  induction entries as [| [[parent ds] fs] rest IH]; simpl; [apply tame_ret |].
  apply tame_bind; [apply tame_ask | intros cwd].
  apply tame_bind; [unfold relpath; tame_steps | intros rel].
  apply tame_bind; [| intros _; exact IH].
  apply tame_try_except; [| intros _; apply tame_ret].
  apply tame_bind; [unfold files_mkdir; tame_steps; discriminate | intros _].
  apply tame_put_files.
Qed.

Lemma tame_repl_search names : tame (W:=W) not_close (repl_search names).
Proof.
  induction names as [| n rest IH]; simpl; [apply tame_ret |].
  apply tame_bind.
  - unfold util_find. tame_steps; discriminate.
  - intros [path |]; [| exact IH].
    unfold util_invoke_repl. tame_steps; discriminate.
Qed.

Lemma tame_dispatch cmd : tame (W:=W) not_close (dispatch cmd).
Proof.
  destruct cmd; simpl.
  - unfold get, files_get, decode_utf8, print, file_write.
    tame_steps; discriminate.
  - unfold mkdir, files_mkdir. tame_steps; discriminate.
  - unfold ls, files_ls. apply tame_bind; [tame_steps; discriminate |].
    intros fs. apply tame_print_each.
  - assert (Hto : forall r, tame (W:=W) not_close (put_to local r)).
    { intros r. unfold put_to. apply tame_bind; [apply tame_ask |].
      intros [|].
      - apply tame_bind; [apply tame_ask | intros es; apply tame_put_walk].
      - unfold open_read, files_put. tame_steps; discriminate. }
    unfold put. destruct remote; [apply Hto |].
    apply tame_bind; [apply tame_ask | intros cwd; apply Hto].
  - unfold rm, files_rm. tame_steps; discriminate.
  - unfold rmdir, files_rmdir. tame_steps; discriminate.
  - unfold run, run_using, files_run, decode_utf8, print_end, click_echo_err.
    tame_steps; discriminate.
  - unfold reset, enter_raw_repl, exit_raw_repl, exec_, eval, print2,
      click_echo_err.
    destruct mode; tame_steps; discriminate.
  - assert (Hno : tame (W:=W) not_close repl_no_terminal).
    { unfold repl_no_terminal, print. tame_steps; discriminate. }
    unfold repl. destruct terminal as [t |].
    + destruct (existsb (pystr_eqb t) SUPPORTED_REPL); [| exact Hno].
      unfold util_find, util_invoke_repl, print.
      tame_steps; try discriminate; exact Hno.
    + apply tame_bind; [apply tame_ask | intros [|]].
      * unfold util_find, util_invoke_repl. tame_steps; discriminate.
      * apply tame_bind; [apply tame_repl_search | intros [|]];
          [apply tame_ret | exact Hno].
Qed.

End CommandsAreTame.

(** ** Facts about [posixpath] *)

Module PosixpathFacts.
Import Posixpath.



Lemma split_rfind p :
  (rfind sep p = (-1)%Z /\ split p = [p])
  \/ ((0 <= rfind sep p)%Z
      /\ exists h t, split p = h :: t /\ t <> []
                     /\ skipn (Z.to_nat (rfind sep p + 1)) p = last t []).
Proof.
  induction p as [| x r IH]; simpl.
  - left. now split.
  - destruct IH as [[Hi Hs] | [Hi (h & t & Hs & Ht & Hl)]].
    + rewrite Hi, Hs. simpl. destruct (N.eqb_spec x sep) as [-> | Hne].
      * right. split; [lia |]. exists [], [r]. repeat split. discriminate.
      * left. now split.
    + destruct (Z.leb_spec 0 (rfind sep r)) as [_ | Hlt]; [| lia].
      right. split; [lia |].
      replace (Z.to_nat (rfind sep r + 1 + 1))
        with (S (Z.to_nat (rfind sep r + 1))) by lia.
      rewrite Hs. simpl skipn. rewrite Hl.
      destruct (x =? sep)%N.
      * exists [], (h :: t). repeat split; [discriminate |].
        destruct t; [contradiction | reflexivity].
      * exists (x :: h), t. now repeat split.
Qed.

(** [basename] is the last component of the path. *)
Lemma basename_last p : basename p = last (split p) [].
Proof.
  unfold basename. destruct (split_rfind p) as [[Hi Hs] | [_ (h & t & Hs & Ht & Hl)]].
  - rewrite Hi, Hs. reflexivity.
  - rewrite Hl, Hs. destruct t; [contradiction | reflexivity].
Qed.

End PosixpathFacts.

Arguments str : simpl never.
Arguments reset_helpers : simpl never.
Arguments mode_repr : simpl never.
Arguments BytesRepr.repr : simpl never.
Arguments Posixpath.normpath : simpl never.
Arguments Posixpath.join : simpl never.
Arguments Posixpath.basename : simpl never.
Arguments Posixpath.abspath : simpl never.
Arguments Posixpath.relpath : simpl never.

(** ** The [reset] command, step by step *)

Section ResetSteps.

Context {W : Type} {C : Collaborators W}.

Definition on_next_reset_call (mode : reset_mode) : pystr :=
  str "on_next_reset(" ++ mode_repr mode ++ str ")".

(** What [reset] does after the board has answered [r]. *)
Definition reset_decision (r : bytes) : M W unit :=
  if truthy r then click_echo_err (Raw r)
  else try_except (exec_ (str "reset()") ;; ret tt)
                  SerialException
                  (fun _ => ret tt).

(** The events of a non-soft [reset] up to and including its [print]. *)
Definition reset_prefix (mode : reset_mode) (r : bytes) : list event :=
  [ Called Pyboard_enter_raw_repl;
    Called (Pyboard_exec reset_helpers);
    Called (Pyboard_eval (on_next_reset_call mode));
    Stdout (str "here we are" ++ str " " ++ BytesRepr.repr r ++ newline) ].

Lemma reset_non_soft mode (s : pstate W) w1 w2 w3 out r :
  mode <> SOFT ->
  o_enter_raw_repl (world s) = (w1, Ok tt) ->
  o_exec_ reset_helpers w1 = (w2, Ok out) ->
  o_eval (on_next_reset_call mode) w2 = (w3, Ok r) ->
  reset mode s
  = let x := reset_decision r {| world := w3; exitfuncs := exitfuncs s |} in
    (state_of x, reset_prefix mode r ++ trace_of x, result_of x).
Proof.
  intros Hmode H1 H2 H3.
  assert (Hgen :
    (enter_raw_repl ;;
     exec_ reset_helpers ;;
     r <- eval (on_next_reset_call mode) ;;
     print2 (str "here we are") (BytesRepr.repr r) ;;
     reset_decision r) s
    = let x := reset_decision r {| world := w3; exitfuncs := exitfuncs s |} in
      (state_of x, reset_prefix mode r ++ trace_of x, result_of x)).
  { unfold bind, enter_raw_repl, exec_, eval, print2, emit, invoke.
    rewrite H1. simpl. rewrite H2. simpl. rewrite H3. simpl.
    destruct (reset_decision r _) as [[s4 t4] r4]. reflexivity. }
  destruct mode; try contradiction; exact Hgen.
Qed.

Lemma reset_decision_proceeds (r : bytes) (s : pstate W) w' e :
  truthy r = false ->
  o_exec_ (str "reset()") (world s) = (w', Raise e) ->
  isinstance e SerialException = true ->
  reset_decision r s
  = ({| world := w'; exitfuncs := exitfuncs s |},
     [Called (Pyboard_exec (str "reset()"))], Ok tt).
Proof.
  intros Hr He Hi. unfold reset_decision. rewrite Hr.
  unfold try_except, bind, exec_, invoke. rewrite He, Hi. reflexivity.
Qed.

End ResetSteps.

(** ** The session state of the protocol engine

    Modelled from the spec: the Raw-Mode Session State, kept by the protocol
    engine of [ampy.pyboard], which is not among the sources.  Section 4.1:
    [enter_raw_repl] drives the state to Raw, [exit_raw_repl] sets it to
    Friendly. *)
Class SessionContract (W : Type) {C : Collaborators W} := {
  session_of : W -> session_state;
  enter_drives_raw : forall w w',
      o_enter_raw_repl w = (w', Ok tt) -> session_of w' = RawMode;
  exit_sets_friendly : forall w w',
      o_exit_raw_repl w = (w', Ok tt) -> session_of w' = Friendly
}.

#[global] Instance sim_session : @SessionContract Sim.board Sim.collaborators.
Proof.
  refine {| session_of := Sim.session |}.
  - intros w w'. simpl. unfold Sim.online.
    destruct (Sim.transport_open w); intros H; inversion H; reflexivity.
  - intros w w'. simpl. unfold Sim.online.
    destruct (Sim.transport_open w); intros H; inversion H; reflexivity.
Defined.

(** ** The exit handler and the group callback, step by step *)

Section Lifecycle.

Context {W : Type} {C : Collaborators W}.

(** What [close] returns for what [board.close()] did: an exception
    outside [Exception] is the only thing that leaves it. *)
Definition close_outcome (r : result unit) : result unit :=
  match r with
  | Raise e => if isinstance e Exception then Ok tt else Raise e
  | Ok _ => Ok tt
  end.

(** What the runtime reports for a result. *)
Definition report_of (r : result unit) : list event :=
  match r with
  | Raise e => [Traceback e]
  | Ok _ => []
  end.

Lemma close_eq (s : pstate W) :
  close s
  = ({| world := fst (o_close (world s)); exitfuncs := exitfuncs s |},
     [Called Pyboard_close], close_outcome (snd (o_close (world s)))).
Proof.
  unfold close, try_except, board_close, invoke.
  destruct (o_close (world s)) as [w' [[] | e]]; simpl; [reflexivity |].
  destruct (isinstance e Exception); reflexivity.
Qed.

(** The port [cli] opens: rewritten on Windows only. *)
Definition effective_port (w : W) (port : pystr) : pystr :=
  if pystr_eqb (platform_system w) (str "Windows")
  then windows_full_port_name port else port.

Lemma cli_eq port baud delay (s : pstate W) w0 :
  o_Pyboard (effective_port (world s) port) baud delay (world s) = (w0, Ok tt) ->
  cli port baud delay s
  = ({| world := w0; exitfuncs := close_hook :: exitfuncs s |},
     [Called (Pyboard_init (effective_port (world s) port) baud delay)], Ok tt).
Proof.
  intros H. unfold cli, bind, ask, Pyboard, invoke, atexit_register.
  fold (effective_port (world s) port). simpl. rewrite H. reflexivity.
Qed.

(** A run of the program whose board could be opened. *)
Lemma ampy_eq port baud delay cmd (w w0 : W) :
  o_Pyboard (effective_port w port) baud delay w = (w0, Ok tt) ->
  let x := dispatch cmd {| world := w0; exitfuncs := [close_hook] |} in
  ampy port baud delay cmd w
  = {| scope_trace :=
         Called (Pyboard_init (effective_port w port) baud delay) :: trace_of x;
       scope_result := result_of x;
       exit_trace :=
         report_of (result_of x)
         ++ Called Pyboard_close
         :: report_of (close_outcome (snd (o_close (world (state_of x)))));
       exit_status := match result_of x with Raise _ => 1%Z | Ok _ => 0%Z end;
       final_world := fst (o_close (world (state_of x))) |}.
Proof.
  intros H x. unfold ampy.
  pose proof (@cli_eq port baud delay {| world := w; exitfuncs := [] |} w0 H)
    as Hcli.
  simpl in Hcli. unfold bind. rewrite Hcli.
  destruct (tame_dispatch cmd {| world := w0; exitfuncs := [close_hook] |})
    as [_ Hreg].
  subst x. unfold state_of, trace_of, result_of in *.
  destruct (dispatch cmd _) as [[s1 t1] r]. simpl in *.
  rewrite Hreg. simpl. rewrite close_eq. simpl.
  destruct (close_outcome (snd (o_close (world s1)))); destruct r; reflexivity.
Qed.

End Lifecycle.

(** ** The claims *)

Section Claims.

Context {W : Type} {C : Collaborators W}.

(** C6, as amended.  The function registered with [atexit] calls the
    board's [close] once.  It returns normally when that call returns and
    when it raises an exception deriving from [Exception], as the errors of
    a disconnected board or an already closed transport do: that exception
    is swallowed.  An exception outside [Exception] raised by [close]
    leaves the handler. *)
Theorem close_hook_swallows_exceptions (s : pstate W) :
  trace_of (close s) = [Called Pyboard_close]
  /\ world (state_of (close s)) = fst (o_close (world s))
  /\ (forall w', o_close (world s) = (w', Ok tt) -> result_of (close s) = Ok tt)
  /\ (forall w' e,
         o_close (world s) = (w', Raise e) ->
         isinstance e Exception = true ->
         result_of (close s) = Ok tt)
  /\ (forall w' e,
         o_close (world s) = (w', Raise e) ->
         isinstance e Exception = false ->
         result_of (close s) = Raise e).
Proof.
  rewrite close_eq. unfold result_of, close_outcome. simpl.
  repeat split.
  - intros w' H. rewrite H. reflexivity.
  - intros w' e H Hi. rewrite H. simpl. rewrite Hi. reflexivity.
  - intros w' e H Hi. rewrite H. simpl. rewrite Hi. reflexivity.
Qed.

(** C3. In a non-soft [reset] whose board accepted the request (empty
    reply), a serial exception raised by the final [exec_("reset()")] is
    swallowed: the command returns normally and leaves nothing on the error
    stream. *)
Theorem reset_disconnect_is_expected
        (mode : reset_mode) (s : pstate W) w1 w2 w3 w4 out r e :
  mode <> SOFT ->
  o_enter_raw_repl (world s) = (w1, Ok tt) ->
  o_exec_ reset_helpers w1 = (w2, Ok out) ->
  o_eval (on_next_reset_call mode) w2 = (w3, Ok r) ->
  truthy r = false ->
  o_exec_ (str "reset()") w3 = (w4, Raise e) ->
  isinstance e SerialException = true ->
  reset mode s
  = ({| world := w4; exitfuncs := exitfuncs s |},
     [ Called Pyboard_enter_raw_repl;
       Called (Pyboard_exec reset_helpers);
       Called (Pyboard_eval (on_next_reset_call mode));
       Stdout (str "here we are" ++ str " " ++ BytesRepr.repr r ++ newline);
       Called (Pyboard_exec (str "reset()")) ],
     Ok tt).
Proof.
  intros Hmode H1 H2 H3 Hr H4 Hi.
  rewrite (reset_non_soft s Hmode H1 H2 H3).
  rewrite (@reset_decision_proceeds W C r {| world := w3; exitfuncs := exitfuncs s |}
                                    w4 e Hr H4 Hi).
  reflexivity.
Qed.

(** C9. In a non-soft [reset], once the board has replied [r] to the
    [on_next_reset] request, the command prints the line
    [here we are <repr of r>] on standard output whatever [r] is, and only
    then either reports [r] on the error stream (non-empty [r]) or submits
    [reset()] (empty [r]). *)
Theorem reset_prints_here_we_are
        (mode : reset_mode) (s : pstate W) w1 w2 w3 out r :
  mode <> SOFT ->
  o_enter_raw_repl (world s) = (w1, Ok tt) ->
  o_exec_ reset_helpers w1 = (w2, Ok out) ->
  o_eval (on_next_reset_call mode) w2 = (w3, Ok r) ->
  exists rest,
    trace_of (reset mode s)
    = [ Called Pyboard_enter_raw_repl;
        Called (Pyboard_exec reset_helpers);
        Called (Pyboard_eval (on_next_reset_call mode));
        Stdout (str "here we are" ++ str " " ++ BytesRepr.repr r ++ newline) ]
      ++ rest
    /\ rest = (if truthy r
               then [Stderr (Raw (r ++ [x0a]))]
               else [Called (Pyboard_exec (str "reset()"))]).
Proof.
  intros Hmode H1 H2 H3.
  rewrite (reset_non_soft s Hmode H1 H2 H3).
  eexists. split; [reflexivity |].
  unfold reset_decision, trace_of. destruct (truthy r); [reflexivity |].
  unfold try_except, bind, exec_, invoke. simpl.
  destruct (o_exec_ (str "reset()") w3) as [w4 [o | e]]; simpl; [reflexivity |].
  destruct (isinstance e SerialException); reflexivity.
Qed.

(** C4, as amended.  In soft mode the session state, driven to Raw by
    [enter_raw_repl], is returned to Friendly by the [exit_raw_repl] call
    that ends the command.  In a non-soft mode in which the reset is
    submitted, the command ends without any [exit_raw_repl] call. *)
Theorem reset_exit_raw_repl_only_when_soft {SC : @SessionContract W C} :
  (forall (s : pstate W) w1 w2,
      o_enter_raw_repl (world s) = (w1, Ok tt) ->
      o_exit_raw_repl w1 = (w2, Ok tt) ->
      reset SOFT s
      = ({| world := w2; exitfuncs := exitfuncs s |},
         [Called Pyboard_enter_raw_repl; Called Pyboard_exit_raw_repl], Ok tt)
      /\ session_of w1 = RawMode /\ session_of w2 = Friendly)
  /\ (forall mode (s : pstate W) w1 w2 w3 out r,
         mode <> SOFT ->
         o_enter_raw_repl (world s) = (w1, Ok tt) ->
         o_exec_ reset_helpers w1 = (w2, Ok out) ->
         o_eval (on_next_reset_call mode) w2 = (w3, Ok r) ->
         truthy r = false ->
         ~ In (Called Pyboard_exit_raw_repl) (trace_of (reset mode s))).
Proof.
  split.
  - intros s w1 w2 H1 H2. repeat split.
    + unfold reset, bind, enter_raw_repl, exit_raw_repl, invoke.
      rewrite H1. simpl. rewrite H2. reflexivity.
    + exact (enter_drives_raw _ H1).
    + exact (exit_sets_friendly _ H2).
  - intros mode s w1 w2 w3 out r Hmode H1 H2 H3 Hr.
    rewrite (reset_non_soft s Hmode H1 H2 H3).
    unfold reset_decision, trace_of. rewrite Hr.
    unfold try_except, bind, exec_, invoke. simpl.
    destruct (o_exec_ (str "reset()") w3) as [w4 [o | e]]; simpl.
    + intros H. repeat (destruct H as [H | H]; [discriminate H |]). exact H.
    + destruct (isinstance e SerialException); simpl;
        intros H; repeat (destruct H as [H | H]; [discriminate H |]); exact H.
Qed.

(** C7. A [get] that succeeds either had no local file argument, and then
    the retrieved bytes were valid UTF-8 and their decoded text (with the
    newline of [print]) is the one thing written to standard output; or it
    had one, and then the retrieved bytes themselves were written to that
    file and nothing was printed. *)
Theorem get_prints_or_saves
        (remote_file : pystr) (local_file : option pystr) (s s' : pstate W) t :
  get remote_file local_file s = (s', t, Ok tt) ->
  exists w1 contents,
    o_get remote_file (world s) = (w1, Ok contents)
    /\ match local_file with
       | None =>
         exists text,
           Utf8.decode (List.map Byte.to_N contents) = Some text
           /\ t = [Called (Files_get remote_file); Stdout (text ++ newline)]
       | Some f =>
         t = [Called (Files_get remote_file); Called (File_write f contents)]
         /\ o_write f contents w1 = (world s', Ok tt)
       end.
Proof.
  unfold get, bind, files_get, invoke.
  destruct (o_get remote_file (world s)) as [w1 [contents | e]];
    [| discriminate].
  intros H. exists w1, contents. split; [reflexivity |].
  destruct local_file as [f |].
  - unfold file_write, invoke in H. simpl in H.
    destruct (o_write f contents w1) as [w2 [[] | e]]; inversion H; subst.
    split; reflexivity.
  - unfold decode_utf8, print, emit in H.
    destruct (Utf8.decode (List.map Byte.to_N contents)) as [text |];
      simpl in H; inversion H; subst.
    exists text. split; reflexivity.
Qed.

(** C8. In a directory [put], when [mkdir] of a remote parent raises
    [DirectoryExistsError], the one thing done for that directory is the
    [mkdir] call: no local file of it is opened, none is uploaded, nothing
    is printed, and the walk goes on with the next directory; if it was the
    last directory, the command returns normally. *)
Theorem put_skips_files_of_existing_directory
        (local remote parent : pystr) (child_dirs child_files : list pystr)
        (rest : list (pystr * list pystr * list pystr))
        (s : pstate W) rel w1 e :
  Posixpath.relpath (getcwd (world s)) parent local = Some rel ->
  o_mkdir (Posixpath.normpath (Posixpath.join remote [rel])) None (world s)
  = (w1, Raise e) ->
  isinstance e DirectoryExistsError = true ->
  let next := put_walk local remote rest
                       {| world := w1; exitfuncs := exitfuncs s |} in
  put_walk local remote ((parent, child_dirs, child_files) :: rest) s
  = (state_of next,
     Called (Files_mkdir (Posixpath.normpath (Posixpath.join remote [rel])) None)
       :: trace_of next,
     result_of next)
  /\ put_walk local remote [(parent, child_dirs, child_files)] s
     = ({| world := w1; exitfuncs := exitfuncs s |},
        [Called (Files_mkdir (Posixpath.normpath (Posixpath.join remote [rel]))
                             None)],
        Ok tt).
Proof.
  intros Hrel Hmk Hi next.
  assert (Hstep : forall tl,
    put_walk local remote ((parent, child_dirs, child_files) :: tl) s
    = let x := put_walk local remote tl
                        {| world := w1; exitfuncs := exitfuncs s |} in
      (state_of x,
       Called (Files_mkdir (Posixpath.normpath (Posixpath.join remote [rel])) None)
         :: trace_of x,
       result_of x)).
  { intros tl. simpl. unfold bind at 1. unfold ask.
    unfold bind at 1. unfold relpath. rewrite Hrel. unfold ret at 1.
    unfold bind at 1. unfold try_except, bind at 1, files_mkdir, invoke.
    rewrite Hmk, Hi. simpl.
    destruct (put_walk local remote tl _) as [[s2 t2] r2]. reflexivity. }
  split.
  - rewrite Hstep. reflexivity.
  - rewrite Hstep. reflexivity.
Qed.

(** C5. [run] with [--no-output] calls the files layer's [run] with
    [wait_for_output] false.  With that method as the spec describes it, the
    command never reads the script's output and never writes to standard
    output, and when the script could be read and submitted it returns right
    after the submission.  With any files layer, it prints nothing when the
    method returns no captured output. *)
Theorem run_no_output_does_not_wait (local_file : pystr) (s : pstate W) :
  (exists rest,
      trace_of (run_using Files_run_spec local_file true s)
      = Called (Files_run local_file false) :: rest)
  /\ ~ In (Called Engine_follow)
          (trace_of (run_using Files_run_spec local_file true s))
  /\ (forall text,
         ~ In (Stdout text) (trace_of (run_using Files_run_spec local_file true s)))
  /\ (forall script w1 w2 w3,
         o_open_read local_file (world s) = (w1, Ok script) ->
         o_enter_raw_repl w1 = (w2, Ok tt) ->
         o_submit script w2 = (w3, Ok tt) ->
         run_using Files_run_spec local_file true s
         = ({| world := w3; exitfuncs := exitfuncs s |},
            [ Called (Files_run local_file false);
              Called (Open_read local_file);
              Called Pyboard_enter_raw_repl;
              Called (Engine_submit script) ],
            Ok tt))
  /\ (exists rest,
         trace_of (run local_file true s)
         = Called (Files_run local_file false) :: rest)
  /\ (forall w1,
         o_run local_file false (world s) = (w1, Ok None) ->
         run local_file true s
         = ({| world := w1; exitfuncs := exitfuncs s |},
            [Called (Files_run local_file false)], Ok tt)).
Proof.
  assert (Hshape :
    (exists rest,
        trace_of (run_using Files_run_spec local_file true s)
        = Called (Files_run local_file false) :: rest)
    /\ Forall (fun e => e <> Called Engine_follow /\ forall text, e <> Stdout text)
              (trace_of (run_using Files_run_spec local_file true s))).
  { unfold run_using, Files_run_spec, try_except, bind, emit, open_read,
      enter_raw_repl, invoke, click_echo_err, trace_of.
    simpl.
    destruct (o_open_read local_file (world s)) as [w1 [script | e1]]; simpl.
    - destruct (o_enter_raw_repl w1) as [w2 [[] | e2]]; simpl.
      + destruct (o_submit script w2) as [w3 [[] | e3]]; simpl.
        * split; [eexists; reflexivity |].
          repeat constructor; try discriminate.
        * destruct (isinstance e3 IOError); simpl;
            (split; [eexists; reflexivity |]);
            repeat constructor; try discriminate.
      + destruct (isinstance e2 IOError); simpl;
          (split; [eexists; reflexivity |]);
          repeat constructor; try discriminate.
    - destruct (isinstance e1 IOError); simpl;
        (split; [eexists; reflexivity |]);
        repeat constructor; try discriminate. }
  destruct Hshape as [Hhead Hall].
  rewrite Forall_forall in Hall.
  split; [exact Hhead |].
  split; [intros Hin; apply (proj1 (Hall _ Hin)); reflexivity |].
  split; [intros text Hin; apply (proj2 (Hall _ Hin) text); reflexivity |].
  split; [| split].
  - intros script w1 w2 w3 H1 H2 H3.
    unfold run_using, Files_run_spec, try_except, bind, emit, open_read,
      enter_raw_repl, invoke.
    simpl. rewrite H1. simpl. rewrite H2. simpl. rewrite H3. reflexivity.
  - unfold run, run_using, try_except, bind, files_run, invoke, trace_of.
    simpl.
    destruct (o_run local_file false (world s)) as [w1 [[o |] | e]]; simpl.
    + destruct (decode_utf8 o _) as [[s2 t2] [text | e]]; simpl.
      * unfold print_end, emit. eexists; reflexivity.
      * destruct (isinstance e IOError); simpl; [| eexists; reflexivity].
        unfold click_echo_err, emit. eexists; reflexivity.
    + eexists; reflexivity.
    + destruct (isinstance e IOError); simpl; eexists; reflexivity.
  - intros w1 H1.
    unfold run, run_using, try_except, bind, files_run, invoke.
    simpl. rewrite H1. reflexivity.
Qed.

(** The files layer call a command starts with raises [e]. *)
Definition first_call_fails (cmd : command) (w0 w1 : W) (e : exn) : Prop :=
  match cmd with
  | Cmd_get remote_file _ => o_get remote_file w0 = (w1, Raise e)
  | Cmd_mkdir directory exists_okay =>
    o_mkdir directory (Some exists_okay) w0 = (w1, Raise e)
  | Cmd_ls directory long_format recursive =>
    o_ls directory long_format recursive w0 = (w1, Raise e)
  | Cmd_rm remote_file => o_rm remote_file w0 = (w1, Raise e)
  | Cmd_rmdir remote_folder missing_okay =>
    o_rmdir remote_folder missing_okay w0 = (w1, Raise e)
  | _ => False
  end.

(** C1, as amended.  When [run] cannot find or read the local input file
    (the files layer raises an [IOError]), the command echoes
    [Failed to find or read input file: <file>] to the error stream, as
    click renders it there, and returns normally, so the process ends with
    status zero.  An error the files layer raises in [get], [mkdir], [ls],
    [rm] or [rmdir] is not caught by the command: it leaves the command,
    which writes nothing to the error stream itself, and the process ends
    with the runtime's report and a non-zero status. *)
Theorem run_reports_unreadable_file_and_returns :
  (forall port baud delay local_file no_output (w w0 w1 : W) e,
      o_Pyboard (effective_port w port) baud delay w = (w0, Ok tt) ->
      o_run local_file (negb no_output) w0 = (w1, Raise e) ->
      isinstance e IOError = true ->
      scope_trace (ampy port baud delay (Cmd_run local_file no_output) w)
      = [ Called (Pyboard_init (effective_port w port) baud delay);
          Called (Files_run local_file (negb no_output));
          Stderr (Text (echo_text (stderr_strips_ansi w1)
                                  (str "Failed to find or read input file: "
                                   ++ local_file ++ newline))) ]
      /\ scope_result (ampy port baud delay (Cmd_run local_file no_output) w)
         = Ok tt
      /\ exit_status (ampy port baud delay (Cmd_run local_file no_output) w)
         = 0%Z)
  /\ (forall port baud delay cmd (w w0 w1 : W) e,
         o_Pyboard (effective_port w port) baud delay w = (w0, Ok tt) ->
         first_call_fails cmd w0 w1 e ->
         scope_result (ampy port baud delay cmd w) = Raise e
         /\ (forall m, ~ In (Stderr m) (scope_trace (ampy port baud delay cmd w)))
         /\ In (Traceback e) (exit_trace (ampy port baud delay cmd w))
         /\ exit_status (ampy port baud delay cmd w) = 1%Z).
Proof.
  split.
  - intros port baud delay local_file no_output w w0 w1 e H0 H1 Hi.
    rewrite (@ampy_eq W C port baud delay (Cmd_run local_file no_output) w w0 H0).
    simpl.
    unfold run, run_using, try_except, bind, files_run, invoke,
      click_echo_err, ask, emit, trace_of, result_of.
    simpl. rewrite H1, Hi. simpl.
    repeat split.
  - intros port baud delay cmd w w0 w1 e H0 Hfail.
    rewrite (@ampy_eq W C port baud delay cmd w w0 H0).
    assert (Hrun :
      exists c, dispatch cmd {| world := w0; exitfuncs := [close_hook] |}
                = ({| world := w1; exitfuncs := [close_hook] |},
                   [Called c], Raise e)).
    { destruct cmd; simpl in Hfail; try contradiction; simpl;
        unfold get, mkdir, ls, rm, rmdir, bind, files_get, files_mkdir,
          files_ls, files_rm, files_rmdir, invoke;
        simpl; rewrite Hfail; eexists; reflexivity. }
    destruct Hrun as [c Hrun]. rewrite Hrun. simpl.
    repeat split.
    + intros m [H | [H | []]]; discriminate H.
    + left. reflexivity.
Qed.

(** C2, as amended.  Whenever the board could be opened, and whether the
    command returns or raises, nothing in the scope of the invocation
    closes the board: the one [close] call is made at interpreter exit, by
    the handler [cli] registered with [atexit], after the traceback of an
    uncaught exception if there is one.  All that can follow it is the
    report of an exception outside [Exception] that [close] raised and the
    handler let through. *)
Theorem board_closed_by_atexit_handler
        (port : pystr) (baud : Z) (delay : float) (cmd : command) (w w0 : W) :
  o_Pyboard (effective_port w port) baud delay w = (w0, Ok tt) ->
  ~ In (Called Pyboard_close) (scope_trace (ampy port baud delay cmd w))
  /\ (exists tail,
         exit_trace (ampy port baud delay cmd w)
         = match scope_result (ampy port baud delay cmd w) with
           | Raise e => [Traceback e]
           | Ok _ => []
           end ++ Called Pyboard_close :: tail
         /\ Forall (fun ev => exists e,
                        ev = Traceback e /\ isinstance e Exception = false)
                   tail)
  /\ exitfuncs (state_of (cli port baud delay {| world := w; exitfuncs := [] |}))
     = [close_hook].
Proof.
  intros H0. rewrite (@ampy_eq W C port baud delay cmd w w0 H0). simpl.
  split; [| split].
  - destruct (tame_dispatch cmd {| world := w0; exitfuncs := [close_hook] |})
      as [Hall _].
    rewrite Forall_forall in Hall.
    intros [Hin | Hin]; [discriminate Hin |].
    exact (Hall _ Hin eq_refl).
  - eexists. split; [reflexivity |].
    unfold close_outcome, report_of.
    destruct (snd (o_close _)) as [[] | e]; [constructor |].
    destruct (isinstance e Exception) eqn:Hi; repeat constructor.
    exists e. now split.
  - rewrite (@cli_eq W C port baud delay {| world := w; exitfuncs := [] |} w0 H0).
    reflexivity.
Qed.

End Claims.

(** ** The claims on the simulated board *)

Module Runs.
Import Sim.

Definition port : pystr := str "/dev/ttyUSB0".

(** The session once [cli] has opened the board. *)
Definition s0 : pstate board := start (opened board0).

(** [ampy -p /dev/ttyUSB0 run missing.py]: there is no such local file. *)
Definition missing_run : process :=
  ampy port 115200 0%float (Cmd_run (str "missing.py") false) board0.

(** [ampy -p /dev/ttyUSB0 ls /]. *)
Definition ls_run : process :=
  ampy port 115200 0%float (Cmd_ls (str "/") false false) board0.

(** [ampy -p /dev/ttyUSB0 get nope.py]: there is no such file on the board. *)
Definition failing_get : process :=
  ampy port 115200 0%float (Cmd_get (str "nope.py") None) board0.

(** The same board without the remote directory [lib]. *)
Definition fresh : pstate board :=
  start (with_remote (opened board0) [] []).

End Runs.

Example put_file_under_own_name :
  trace_of (put (str "main.py") None Runs.s0)
  = [ Called (Open_read (str "main.py"));
      Called (Files_put (str "main.py") [x31]) ].
Proof. vm_compute. reflexivity. Qed.

Example put_new_directory :
  trace_of (put (str "lib") None Runs.fresh)
  = [ Called (Files_mkdir (str "lib") None);
      Called (Open_read (str "lib/a.py"));
      Called (Files_put (str "lib/a.py") [x32]) ].
Proof. vm_compute. reflexivity. Qed.

Example get_to_file :
  trace_of (get (str "boot.py") (Some (str "boot.bak")) Runs.s0)
  = [ Called (Files_get (str "boot.py"));
      Called (File_write (str "boot.bak") [x68; x69]) ].
Proof. vm_compute. reflexivity. Qed.

Example reset_refused :
  trace_of (reset BOOTLOADER
                  (Sim.start {| Sim.transport_open := true;
                                Sim.session := Unknown;
                                Sim.reply := [x6e; x6f];
                                Sim.remote_dirs := [];
                                Sim.remote_files := [];
                                Sim.local_files := [];
                                Sim.local_tree := [];
                                Sim.cwd := str "/" |}))
  = [ Called Pyboard_enter_raw_repl;
      Called (Pyboard_exec reset_helpers);
      Called (Pyboard_eval (str "on_next_reset('BOOTLOADER')"));
      Stdout (str "here we are b'no'" ++ newline);
      Stderr (Raw [x6e; x6f; x0a]) ].
Proof. vm_compute. reflexivity. Qed.

(** C1, counterexample.  [run missing.py]: the files layer raises
    [FileNotFoundError], an [IOError]; the command reports it on the error
    stream, and the process ends with status zero. *)
Lemma run_missing_file_exits_zero :
  snd (o_run (str "missing.py") true (Sim.opened Sim.board0))
  = Raise (Sim.missing (str "missing.py"))
  /\ isinstance (Sim.missing (str "missing.py")) IOError = true
  /\ In (Stderr (Text (str "Failed to find or read input file: missing.py"
                       ++ newline)))
        (scope_trace Runs.missing_run)
  /\ ~ (exit_status Runs.missing_run <> 0%Z).
Proof.
  split; [reflexivity |]. split; [reflexivity |].
  split.
  - vm_compute. right. right. left. reflexivity.
  - intros H. apply H. reflexivity.
Qed.

Lemma run_reports_unreadable_file_witness :
  scope_trace Runs.missing_run
  = [ Called (Pyboard_init (effective_port Sim.board0 Runs.port) 115200 0%float);
      Called (Files_run (str "missing.py") (negb false));
      Stderr (Text (str "Failed to find or read input file: "
                    ++ str "missing.py" ++ newline)) ]
  /\ scope_result Runs.missing_run = Ok tt
  /\ exit_status Runs.missing_run = 0%Z.
Proof.
  apply (proj1 (@run_reports_unreadable_file_and_returns Sim.board Sim.collaborators)
               Runs.port 115200%Z 0%float (str "missing.py") false
               Sim.board0 (Sim.opened Sim.board0) (Sim.opened Sim.board0)
               (Sim.missing (str "missing.py")));
    reflexivity.
Defined.

(** C2, counterexample.  [ls /]: no [close] call is made while the
    invocation is in scope; the board is closed at interpreter exit. *)
Lemma close_is_left_to_interpreter_exit :
  ~ In (Called Pyboard_close) (scope_trace Runs.ls_run)
  /\ exit_trace Runs.ls_run = [Called Pyboard_close].
Proof.
  split; [| reflexivity].
  vm_compute. intros [H | [H | [H | H]]]; try discriminate H. exact H.
Qed.

Lemma board_closed_by_atexit_handler_witness :
  ~ In (Called Pyboard_close) (scope_trace Runs.failing_get)
  /\ (exists tail,
         exit_trace Runs.failing_get
         = match scope_result Runs.failing_get with
           | Raise e => [Traceback e]
           | Ok _ => []
           end ++ Called Pyboard_close :: tail
         /\ Forall (fun ev => exists e,
                        ev = Traceback e /\ isinstance e Exception = false)
                   tail)
  /\ exitfuncs (state_of (cli Runs.port 115200 0%float
                              {| world := Sim.board0; exitfuncs := [] |}))
     = [close_hook].
Proof.
  apply (@board_closed_by_atexit_handler Sim.board Sim.collaborators
           Runs.port 115200%Z 0%float (Cmd_get (str "nope.py") None)
           Sim.board0 (Sim.opened Sim.board0)).
  reflexivity.
Defined.

Lemma reset_disconnect_is_expected_witness :
  reset NORMAL Runs.s0
  = ({| world := Sim.with_transport
                   (Sim.with_transport (Sim.opened Sim.board0) true RawMode)
                   false Unknown;
        exitfuncs := [] |},
     [ Called Pyboard_enter_raw_repl;
       Called (Pyboard_exec reset_helpers);
       Called (Pyboard_eval (on_next_reset_call NORMAL));
       Stdout (str "here we are" ++ str " " ++ BytesRepr.repr [] ++ newline);
       Called (Pyboard_exec (str "reset()")) ],
     Ok tt).
Proof.
  apply (@reset_disconnect_is_expected Sim.board Sim.collaborators NORMAL Runs.s0
           (Sim.with_transport (Sim.opened Sim.board0) true RawMode)
           (Sim.with_transport (Sim.opened Sim.board0) true RawMode)
           (Sim.with_transport (Sim.opened Sim.board0) true RawMode)
           (Sim.with_transport
              (Sim.with_transport (Sim.opened Sim.board0) true RawMode)
              false Unknown)
           [] [] Sim.disconnected);
    first [discriminate | reflexivity].
Defined.

(** C4, counterexample.  [reset --hard] on a board that accepts the
    request: the command returns normally, never calls [exit_raw_repl], and
    the session is not Friendly when it ends. *)
Lemma hard_reset_never_leaves_raw_mode :
  result_of (reset NORMAL Runs.s0) = Ok tt
  /\ ~ In (Called Pyboard_exit_raw_repl) (trace_of (reset NORMAL Runs.s0))
  /\ Sim.session (world (state_of (reset NORMAL Runs.s0))) <> Friendly.
Proof.
  split; [reflexivity |]. split.
  - vm_compute.
    intros [H | [H | [H | [H | [H | H]]]]]; try discriminate H. exact H.
  - vm_compute. discriminate.
Qed.

Lemma reset_exit_raw_repl_only_when_soft_witness :
  (reset SOFT Runs.s0
   = ({| world := Sim.with_transport
                    (Sim.with_transport (Sim.opened Sim.board0) true RawMode)
                    true Friendly;
         exitfuncs := [] |},
      [Called Pyboard_enter_raw_repl; Called Pyboard_exit_raw_repl], Ok tt)
   /\ Sim.session (Sim.with_transport (Sim.opened Sim.board0) true RawMode)
      = RawMode
   /\ Sim.session
        (Sim.with_transport
           (Sim.with_transport (Sim.opened Sim.board0) true RawMode)
           true Friendly)
      = Friendly)
  /\ ~ In (Called Pyboard_exit_raw_repl) (trace_of (reset NORMAL Runs.s0)).
Proof.
  split.
  - apply (proj1 (@reset_exit_raw_repl_only_when_soft
                    Sim.board Sim.collaborators sim_session)
                 Runs.s0
                 (Sim.with_transport (Sim.opened Sim.board0) true RawMode)
                 (Sim.with_transport
                    (Sim.with_transport (Sim.opened Sim.board0) true RawMode)
                    true Friendly));
      reflexivity.
  - apply (proj2 (@reset_exit_raw_repl_only_when_soft
                    Sim.board Sim.collaborators sim_session)
                 NORMAL Runs.s0
                 (Sim.with_transport (Sim.opened Sim.board0) true RawMode)
                 (Sim.with_transport (Sim.opened Sim.board0) true RawMode)
                 (Sim.with_transport (Sim.opened Sim.board0) true RawMode)
                 [] []);
      first [discriminate | reflexivity].
Defined.

Lemma run_no_output_does_not_wait_witness :
  run_using Files_run_spec (str "main.py") true Runs.s0
  = ({| world := Sim.with_transport (Sim.opened Sim.board0) true RawMode;
        exitfuncs := [] |},
     [ Called (Files_run (str "main.py") false);
       Called (Open_read (str "main.py"));
       Called Pyboard_enter_raw_repl;
       Called (Engine_submit [x31]) ],
     Ok tt).
Proof.
  apply (proj1 (proj2 (proj2 (proj2
           (@run_no_output_does_not_wait Sim.board Sim.collaborators
              (str "main.py") Runs.s0))))
         [x31] (Sim.opened Sim.board0)
         (Sim.with_transport (Sim.opened Sim.board0) true RawMode)
         (Sim.with_transport (Sim.opened Sim.board0) true RawMode));
    reflexivity.
Defined.

Lemma get_prints_or_saves_witness :
  exists w1 contents,
    o_get (str "boot.py") (world Runs.s0) = (w1, Ok contents)
    /\ exists text,
        Utf8.decode (List.map Byte.to_N contents) = Some text
        /\ [Called (Files_get (str "boot.py")); Stdout (str "hi" ++ newline)]
           = [Called (Files_get (str "boot.py")); Stdout (text ++ newline)].
Proof.
  apply (@get_prints_or_saves Sim.board Sim.collaborators
           (str "boot.py") None Runs.s0 Runs.s0
           [Called (Files_get (str "boot.py")); Stdout (str "hi" ++ newline)]).
  reflexivity.
Defined.

Lemma put_skips_files_of_existing_directory_witness :
  put_walk (str "lib") (str "lib") [(str "lib", [], [str "a.py"])] Runs.s0
  = (Runs.s0,
     [Called (Files_mkdir
                (Posixpath.normpath (Posixpath.join (str "lib") [str "."]))
                None)],
     Ok tt).
Proof.
  apply (proj2 (@put_skips_files_of_existing_directory Sim.board Sim.collaborators
                  (str "lib") (str "lib") (str "lib") [] [str "a.py"] []
                  Runs.s0 (str ".") (Sim.opened Sim.board0)
                  {| exn_class := DirectoryExistsError; exn_msg := str "lib" |}
                  eq_refl eq_refl eq_refl)).
Defined.

Lemma reset_prints_here_we_are_witness :
  exists rest,
    trace_of (reset SAFE_MODE Runs.s0)
    = [ Called Pyboard_enter_raw_repl;
        Called (Pyboard_exec reset_helpers);
        Called (Pyboard_eval (on_next_reset_call SAFE_MODE));
        Stdout (str "here we are" ++ str " " ++ BytesRepr.repr [] ++ newline) ]
      ++ rest
    /\ rest = (if truthy []
               then [Stderr (Raw ([] ++ [x0a]))]
               else [Called (Pyboard_exec (str "reset()"))]).
Proof.
  apply (@reset_prints_here_we_are Sim.board Sim.collaborators SAFE_MODE Runs.s0
           (Sim.with_transport (Sim.opened Sim.board0) true RawMode)
           (Sim.with_transport (Sim.opened Sim.board0) true RawMode)
           (Sim.with_transport (Sim.opened Sim.board0) true RawMode)
           [] []);
    first [discriminate | reflexivity].
Defined.

(** * Further properties of the commands *)

(** ** More simulated machines *)

Module Machines.
Import Sim.

(** The simulated collaborators with another constructor, terminal lookup
    and transport kind. *)
Definition variant
           (open : pystr -> Z -> float -> board -> board * result unit)
           (find_terminal : pystr -> board -> board * result pystr)
           (telnet : bool) : Collaborators board := {|
  o_Pyboard := open;
  o_close := @o_close _ collaborators;
  o_enter_raw_repl := @o_enter_raw_repl _ collaborators;
  o_exit_raw_repl := @o_exit_raw_repl _ collaborators;
  o_exec_ := @o_exec_ _ collaborators;
  o_eval := @o_eval _ collaborators;
  is_telnet := fun _ => telnet;
  device := @device _ collaborators;
  o_get := @o_get _ collaborators;
  o_mkdir := @o_mkdir _ collaborators;
  o_ls := @o_ls _ collaborators;
  o_put := @o_put _ collaborators;
  o_rm := @o_rm _ collaborators;
  o_rmdir := @o_rmdir _ collaborators;
  o_run := @o_run _ collaborators;
  o_submit := @o_submit _ collaborators;
  o_follow := @o_follow _ collaborators;
  windows_full_port_name := @windows_full_port_name _ collaborators;
  o_find := find_terminal;
  o_invoke_repl := @o_invoke_repl _ collaborators;
  SUPPORTED_REPL := @SUPPORTED_REPL _ collaborators;
  red := @red _ collaborators;
  bold := @bold _ collaborators;
  indent := @indent _ collaborators;
  platform_system := @platform_system _ collaborators;
  getcwd := @getcwd _ collaborators;
  isdir := @isdir _ collaborators;
  walk := @walk _ collaborators;
  o_open_read := @o_open_read _ collaborators;
  o_write := @o_write _ collaborators;
  stderr_strips_ansi := @stderr_strips_ansi _ collaborators
|}.

Definition no_such_port : exn :=
  {| exn_class := SerialException; exn_msg := str "could not open port" |}.

(** A machine on which the serial port cannot be opened. *)
Definition unplugged : Collaborators board :=
  variant (fun _ _ _ b => (b, Raise no_such_port))
          (@o_find _ collaborators) false.

(** A machine on which [minicom] is installed, and nothing else. *)
Definition find_minicom (name : pystr) (b : board) : board * result pystr :=
  if pystr_eqb name (str "minicom")
  then (b, Ok (str "/usr/bin/minicom"))
  else (b, Raise (missing name)).

Definition with_minicom : Collaborators board :=
  variant (@o_Pyboard _ collaborators) find_minicom false.

(** A board holding a file that is not UTF-8 and one that is plain ASCII. *)
Definition binary_board : board :=
  with_remote (opened board0) []
              [(str "blob.bin", [xff; x00]); (str "note.txt", [x6f; x6b])].

(** A board that refuses the requested reset mode. *)
Definition refusing_board : board := {|
  transport_open := true;
  session := Unknown;
  reply := [x6e; x6f];
  remote_dirs := [];
  remote_files := [];
  local_files := [];
  local_tree := [];
  cwd := str "/"
|}.

End Machines.

Section MoreSteps.

Context {W : Type} {C : Collaborators W}.

Lemma print_each_eq (fs : list pystr) (s : pstate W) :
  print_each fs s
  = (s, List.map (fun f => Stdout (f ++ newline)) fs, Ok tt).
Proof.
  induction fs as [| f rest IH]; [reflexivity |].
  simpl. unfold bind, print, emit. rewrite IH. reflexivity.
Qed.

Lemma decode_ascii (bs : list N) :
  Forall (fun b => (b < 128)%N) bs -> Utf8.decode bs = Some bs.
Proof.
  induction 1 as [| b rest Hb _ IH]; [reflexivity |].
  simpl. destruct (N.ltb_spec b 128) as [_ | Hge]; [| lia].
  rewrite IH. reflexivity.
Qed.

Lemma cli_Raise port baud delay (s : pstate W) w0 e :
  o_Pyboard (effective_port (world s) port) baud delay (world s)
  = (w0, Raise e) ->
  cli port baud delay s
  = ({| world := w0; exitfuncs := exitfuncs s |},
     [Called (Pyboard_init (effective_port (world s) port) baud delay)],
     Raise e).
Proof.
  intros H. unfold cli, bind, ask, Pyboard, invoke.
  fold (effective_port (world s) port). simpl. rewrite H. reflexivity.
Qed.

Lemma helpers_not_reset : reset_helpers <> str "reset()".
Proof. intros H. vm_compute in H. discriminate H. Qed.

End MoreSteps.

Section MoreProperties.

Context {W : Type} {C : Collaborators W}.

(** X1. When the board cannot be opened, [cli] raises before it registers
    its exit handler: no command runs, no [close] is ever attempted, the
    error is reported and the process ends with status 1. *)
Theorem unopened_board_is_never_closed
        (port : pystr) (baud : Z) (delay : float) (cmd : command) (w w0 : W) e :
  o_Pyboard (effective_port w port) baud delay w = (w0, Raise e) ->
  ampy port baud delay cmd w
  = {| scope_trace :=
         [Called (Pyboard_init (effective_port w port) baud delay)];
       scope_result := Raise e;
       exit_trace := [Traceback e];
       exit_status := 1%Z;
       final_world := w0 |}.
Proof.
  intros H.
  pose proof (@cli_Raise W C port baud delay {| world := w; exitfuncs := [] |}
                         w0 e H) as Hcli.
  simpl in Hcli. unfold ampy, bind. rewrite Hcli. reflexivity.
Qed.

(** X2. [ls] prints the entries the files layer returns one per line, in
    the order returned, and nothing else; an empty listing prints
    nothing. *)
Theorem ls_prints_one_line_per_entry
        (directory : pystr) (long_format recursive : bool)
        (s : pstate W) w1 (fs : list pystr) :
  o_ls directory long_format recursive (world s) = (w1, Ok fs) ->
  ls directory long_format recursive s
  = ({| world := w1; exitfuncs := exitfuncs s |},
     Called (Files_ls directory long_format recursive)
       :: List.map (fun f => Stdout (f ++ newline)) fs,
     Ok tt).
Proof.
  intros H. unfold ls, bind, files_ls, invoke. rewrite H.
  rewrite print_each_eq. reflexivity.
Qed.

(** X3. [get] without a local file fails with [UnicodeDecodeError], after
    the download and without printing anything, when the file is not valid
    UTF-8; with a local file the same bytes are written out undecoded. *)
Theorem get_undecodable_contents
        (remote_file : pystr) (s : pstate W) w1 (contents : bytes) :
  o_get remote_file (world s) = (w1, Ok contents) ->
  Utf8.decode (List.map Byte.to_N contents) = None ->
  get remote_file None s
  = ({| world := w1; exitfuncs := exitfuncs s |},
     [Called (Files_get remote_file)],
     Raise {| exn_class := UnicodeDecodeError; exn_msg := str "utf-8" |})
  /\ forall f,
      get remote_file (Some f) s
      = ({| world := fst (o_write f contents w1); exitfuncs := exitfuncs s |},
         [Called (Files_get remote_file); Called (File_write f contents)],
         snd (o_write f contents w1)).
Proof.
  intros Hget Hdec. split.
  - unfold get, bind, files_get, invoke, decode_utf8. rewrite Hget, Hdec.
    reflexivity.
  - intros f. unfold get, bind, files_get, file_write, invoke. rewrite Hget.
    simpl. destruct (o_write f contents w1) as [w2 r]. reflexivity.
Qed.

(** X4. [get] without a local file prints a file made of ASCII bytes
    byte for byte, followed by the newline of [print]. *)
Theorem get_prints_ascii_verbatim
        (remote_file : pystr) (s : pstate W) w1 (contents : bytes) :
  o_get remote_file (world s) = (w1, Ok contents) ->
  Forall (fun b => (Byte.to_N b < 128)%N) contents ->
  get remote_file None s
  = ({| world := w1; exitfuncs := exitfuncs s |},
     [ Called (Files_get remote_file);
       Stdout (List.map Byte.to_N contents ++ newline) ],
     Ok tt).
Proof.
  intros Hget Hascii.
  unfold get, bind, files_get, invoke, decode_utf8. rewrite Hget.
  rewrite decode_ascii; [reflexivity |].
  apply Forall_map. exact Hascii.
Qed.

(** X5. [run] without [--no-output] waits for the output and prints its
    decoded text exactly, with no newline added. *)
Theorem run_prints_output_verbatim
        (local_file : pystr) (s : pstate W) w1 (output : bytes) (text : pystr) :
  o_run local_file true (world s) = (w1, Ok (Some output)) ->
  Utf8.decode (List.map Byte.to_N output) = Some text ->
  run local_file false s
  = ({| world := w1; exitfuncs := exitfuncs s |},
     [Called (Files_run local_file true); Stdout text],
     Ok tt).
Proof.
  intros Hrun Hdec.
  unfold run, run_using, try_except, bind, files_run, invoke, decode_utf8,
    print_end, emit.
  simpl. rewrite Hrun. simpl. rewrite Hdec. simpl.
  rewrite app_nil_r. reflexivity.
Qed.

(** X6. [run] handles [IOError] only.  Any other error of the files layer
    leaves the command uncaught, and so does the [UnicodeDecodeError] of an
    output that is not valid UTF-8; in both cases the command itself writes
    nothing to either stream. *)
Theorem run_other_errors_propagate
        (local_file : pystr) (no_output : bool) (s : pstate W) :
  (forall w1 e,
      o_run local_file (negb no_output) (world s) = (w1, Raise e) ->
      isinstance e IOError = false ->
      run local_file no_output s
      = ({| world := w1; exitfuncs := exitfuncs s |},
         [Called (Files_run local_file (negb no_output))], Raise e))
  /\ (forall w1 output,
         o_run local_file (negb no_output) (world s) = (w1, Ok (Some output)) ->
         Utf8.decode (List.map Byte.to_N output) = None ->
         run local_file no_output s
         = ({| world := w1; exitfuncs := exitfuncs s |},
            [Called (Files_run local_file (negb no_output))],
            Raise {| exn_class := UnicodeDecodeError; exn_msg := str "utf-8" |})).
Proof.
  split.
  - intros w1 e Hrun Hi.
    unfold run, run_using, try_except, bind, files_run, invoke.
    rewrite Hrun, Hi. reflexivity.
  - intros w1 output Hrun Hdec.
    unfold run, run_using, try_except, bind, files_run, invoke, decode_utf8.
    rewrite Hrun. simpl. rewrite Hdec. reflexivity.
Qed.

(** X7. A serial transport failure during [run] is caught by the same
    [except IOError] clause, [SerialException] being an [IOError]: it is
    echoed to the error stream as
    [Failed to find or read input file: <file>], as click renders it
    there, and the command returns normally. *)
Theorem run_reports_serial_failure_as_unreadable_file
        (local_file : pystr) (no_output : bool) (s : pstate W) w1 e :
  o_run local_file (negb no_output) (world s) = (w1, Raise e) ->
  exn_class e = SerialException ->
  run local_file no_output s
  = ({| world := w1; exitfuncs := exitfuncs s |},
     [ Called (Files_run local_file (negb no_output));
       Stderr (Text (echo_text (stderr_strips_ansi w1)
                               (str "Failed to find or read input file: "
                                ++ local_file ++ newline))) ],
     Ok tt).
Proof.
  intros Hrun Hcls.
  assert (Hi : isinstance e IOError = true).
  { unfold isinstance. rewrite Hcls. reflexivity. }
  unfold run, run_using, try_except, bind, files_run, invoke,
    click_echo_err, ask, emit.
  rewrite Hrun, Hi. simpl. reflexivity.
Qed.

End MoreProperties.

(** ** [reset] and [repl], further *)

Section ResetAndRepl.

Context {W : Type} {C : Collaborators W}.

Lemma reset_non_soft_body (mode : reset_mode) :
  mode <> SOFT ->
  reset mode
  = (enter_raw_repl ;;
     exec_ reset_helpers ;;
     r <- eval (on_next_reset_call mode) ;;
     print2 (str "here we are") (BytesRepr.repr r) ;;
     reset_decision r).
Proof. destruct mode; intros H; try reflexivity; contradiction. Qed.

(** The four lines [repl] prints when it gives up. *)
Definition no_terminal_lines : list event :=
  [ Stdout (bold (red (str "Couldn't find a suitable terminal emulator program to launch!") None)
            ++ newline);
    Stdout ((newline ++ str "ampy can invoke one of the following terminal programs:")
            ++ newline);
    Stdout (indent (str_join newline SUPPORTED_REPL) (str "  - ") ++ newline);
    Stdout ((newline ++ str "If you want your favourite terminal program added to this list,"
             ++ newline ++ str "please raise an issue @ http://github.com/pycampers/ampy")
            ++ newline) ].

Lemma repl_no_terminal_eq (s : pstate W) :
  repl_no_terminal s = (s, no_terminal_lines, Ok tt).
Proof. reflexivity. Qed.

(** Every name of the list is looked up and reported missing. *)
Inductive all_missing : list pystr -> W -> W -> Prop :=
| all_missing_nil w : all_missing [] w w
| all_missing_cons name names w w1 w2 e :
    o_find name w = (w1, Raise e) ->
    isinstance e FileNotFoundError = true ->
    all_missing names w1 w2 ->
    all_missing (name :: names) w w2.

Lemma repl_search_skips (pre rest : list pystr) (s : pstate W) w1 :
  all_missing pre (world s) w1 ->
  repl_search (pre ++ rest) s
  = let x := repl_search rest {| world := w1; exitfuncs := exitfuncs s |} in
    (state_of x,
     List.map (fun n => Called (Util_find n)) pre ++ trace_of x,
     result_of x).
Proof.
  revert s. induction pre as [| n ns IH]; intros s Hmiss.
  - inversion Hmiss; subst. simpl. destruct s as [w hs]. simpl.
    destruct (repl_search rest _) as [[s2 t2] r2]. reflexivity.
  - inversion Hmiss as [| ? ? ? wa ? e Hfind Hi Hrest]; subst.
    simpl app. simpl repl_search.
    unfold bind at 1. unfold try_except, bind at 1, util_find, invoke.
    rewrite Hfind, Hi. simpl.
    rewrite (IH {| world := wa; exitfuncs := exitfuncs s |} Hrest). simpl.
    destruct (repl_search rest _) as [[s2 t2] r2]. reflexivity.
Qed.

(** X8. A non-soft [reset] the board refuses (non-empty reply): the reply
    is echoed on the error stream, [reset()] is not submitted, and the
    command returns normally. *)
Theorem reset_refused_is_reported_not_performed
        (mode : reset_mode) (s : pstate W) w1 w2 w3 out r :
  mode <> SOFT ->
  o_enter_raw_repl (world s) = (w1, Ok tt) ->
  o_exec_ reset_helpers w1 = (w2, Ok out) ->
  o_eval (on_next_reset_call mode) w2 = (w3, Ok r) ->
  truthy r = true ->
  reset mode s
  = ({| world := w3; exitfuncs := exitfuncs s |},
     [ Called Pyboard_enter_raw_repl;
       Called (Pyboard_exec reset_helpers);
       Called (Pyboard_eval (on_next_reset_call mode));
       Stdout (str "here we are" ++ str " " ++ BytesRepr.repr r ++ newline);
       Stderr (Raw (r ++ [x0a])) ],
     Ok tt).
Proof.
  intros Hmode H1 H2 H3 Hr.
  rewrite (reset_non_soft s Hmode H1 H2 H3).
  unfold reset_decision. rewrite Hr. reflexivity.
Qed.

(** X9. Only a serial exception of the final [exec_("reset()")] is
    swallowed: any other exception leaves [reset] uncaught, and when the
    call returns (the board did not drop the link) the command returns
    normally. *)
Theorem reset_final_step_outcomes
        (mode : reset_mode) (s : pstate W) w1 w2 w3 out r :
  mode <> SOFT ->
  o_enter_raw_repl (world s) = (w1, Ok tt) ->
  o_exec_ reset_helpers w1 = (w2, Ok out) ->
  o_eval (on_next_reset_call mode) w2 = (w3, Ok r) ->
  truthy r = false ->
  (forall w4 e,
      o_exec_ (str "reset()") w3 = (w4, Raise e) ->
      isinstance e SerialException = false ->
      result_of (reset mode s) = Raise e
      /\ world (state_of (reset mode s)) = w4)
  /\ (forall w4 o,
         o_exec_ (str "reset()") w3 = (w4, Ok o) ->
         result_of (reset mode s) = Ok tt
         /\ world (state_of (reset mode s)) = w4).
Proof.
  intros Hmode H1 H2 H3 Hr.
  rewrite (reset_non_soft s Hmode H1 H2 H3).
  unfold reset_decision. rewrite Hr.
  unfold try_except, bind, exec_, invoke, result_of, state_of. simpl.
  split.
  - intros w4 e H4 Hi. rewrite H4, Hi. split; reflexivity.
  - intros w4 o H4. rewrite H4. split; reflexivity.
Qed.

(** X10. [reset()] is submitted to the board only in a non-soft mode and
    only after [enter_raw_repl], the helper definitions and the
    [on_next_reset] request all succeeded and the reply was empty. *)
Theorem reset_submitted_only_after_empty_reply
        (mode : reset_mode) (s : pstate W) :
  In (Called (Pyboard_exec (str "reset()"))) (trace_of (reset mode s)) ->
  mode <> SOFT
  /\ exists w1 w2 w3 out,
      o_enter_raw_repl (world s) = (w1, Ok tt)
      /\ o_exec_ reset_helpers w1 = (w2, Ok out)
      /\ o_eval (on_next_reset_call mode) w2 = (w3, Ok []).
Proof.
  assert (Hkill : forall l,
    Forall (fun ev => forall c, ev = Called c ->
                                c <> Pyboard_exec (str "reset()")) l ->
    ~ In (Called (Pyboard_exec (str "reset()"))) l).
  { intros l Hall Hin. rewrite Forall_forall in Hall.
    exact (Hall _ Hin _ eq_refl eq_refl). }
  assert (Hh : Pyboard_exec reset_helpers <> Pyboard_exec (str "reset()")).
  { intros H. apply helpers_not_reset.
    exact (f_equal (fun c => match c with Pyboard_exec x => x | _ => [] end) H). }
  intros Hin.
  assert (Hmode : mode <> SOFT).
  { intros ->. revert Hin. apply Hkill.
    unfold reset, bind, enter_raw_repl, exit_raw_repl, invoke, trace_of.
    destruct (o_enter_raw_repl (world s)) as [w1 [[] | e]]; simpl.
    - destruct (o_exit_raw_repl w1) as [w2 r]; simpl.
      repeat constructor; intros c H; inversion H; discriminate.
    - repeat constructor; intros c H; inversion H; discriminate. }
  split; [exact Hmode |].
  destruct (o_enter_raw_repl (world s)) as [w1 [[] | e1]] eqn:H1.
  - destruct (o_exec_ reset_helpers w1) as [w2 [out | e2]] eqn:H2.
    + destruct (o_eval (on_next_reset_call mode) w2) as [w3 [r | e3]] eqn:H3.
      * destruct r as [| b r'].
        { exists w1, w2, w3, out. repeat split; assumption. }
        exfalso. revert Hin.
        rewrite (reset_non_soft s Hmode H1 H2 H3). apply Hkill.
        unfold reset_decision, reset_prefix, trace_of. simpl.
        repeat constructor; intros c H; inversion H; subst;
          first [exact Hh | discriminate].
      * exfalso. revert Hin. rewrite (reset_non_soft_body Hmode). apply Hkill.
        unfold bind, enter_raw_repl, exec_, eval, invoke, trace_of.
        rewrite H1. simpl. rewrite H2. simpl. rewrite H3. simpl.
        repeat constructor; intros c H; inversion H; subst;
          first [exact Hh | discriminate].
    + exfalso. revert Hin. rewrite (reset_non_soft_body Hmode). apply Hkill.
      unfold bind, enter_raw_repl, exec_, invoke, trace_of.
      rewrite H1. simpl. rewrite H2. simpl.
      repeat constructor; intros c H; inversion H; subst;
        first [exact Hh | discriminate].
  - exfalso. revert Hin. rewrite (reset_non_soft_body Hmode). apply Hkill.
    unfold bind, enter_raw_repl, invoke, trace_of.
    rewrite H1. simpl.
    repeat constructor; intros c H; inversion H; discriminate.
Qed.

End ResetAndRepl.

Section ResetAndReplProcess.

Context {W : Type} {C : Collaborators W}.

(** X11. A non-soft reset that the board performs ends the process with
    status zero and an empty error stream, also when the [close] made at
    exit fails on the dropped link with an exception deriving from
    [Exception], as serial errors do: the exit handler's one [close] call
    is all that follows the command. *)
Theorem performed_reset_exits_cleanly
        (port : pystr) (baud : Z) (delay : float) (mode : reset_mode)
        (w w0 w1 w2 w3 w4 : W) out e :
  o_Pyboard (effective_port w port) baud delay w = (w0, Ok tt) ->
  mode <> SOFT ->
  o_enter_raw_repl w0 = (w1, Ok tt) ->
  o_exec_ reset_helpers w1 = (w2, Ok out) ->
  o_eval (on_next_reset_call mode) w2 = (w3, Ok []) ->
  o_exec_ (str "reset()") w3 = (w4, Raise e) ->
  isinstance e SerialException = true ->
  (forall w5 e', o_close w4 = (w5, Raise e') -> isinstance e' Exception = true) ->
  scope_result (ampy port baud delay (Cmd_reset mode) w) = Ok tt
  /\ exit_status (ampy port baud delay (Cmd_reset mode) w) = 0%Z
  /\ exit_trace (ampy port baud delay (Cmd_reset mode) w) = [Called Pyboard_close]
  /\ (forall m, ~ In (Stderr m)
                     (scope_trace (ampy port baud delay (Cmd_reset mode) w)))
  /\ final_world (ampy port baud delay (Cmd_reset mode) w) = fst (o_close w4).
Proof.
  intros H0 Hmode H1 H2 H3 H4 Hi Hclose.
  assert (Hout : close_outcome (snd (o_close w4)) = Ok tt).
  { destruct (o_close w4) as [w5 [[] | e']] eqn:Hc; [reflexivity |].
    simpl. now rewrite (Hclose w5 e' eq_refl). }
  assert (Hreset :
    reset mode {| world := w0; exitfuncs := [close_hook] |}
    = ({| world := w4; exitfuncs := [close_hook] |},
       reset_prefix mode [] ++ [Called (Pyboard_exec (str "reset()"))],
       Ok tt)).
  { rewrite (@reset_non_soft W C mode
               {| world := w0; exitfuncs := [close_hook] |}
               w1 w2 w3 out [] Hmode H1 H2 H3).
    cbn [exitfuncs].
    rewrite (@reset_decision_proceeds W C []
               {| world := w3; exitfuncs := [close_hook] |} w4 e eq_refl H4 Hi).
    reflexivity. }
  rewrite (@ampy_eq W C port baud delay (Cmd_reset mode) w w0 H0).
  cbn [dispatch]. rewrite Hreset.
  cbn [scope_result exit_status exit_trace scope_trace final_world
       result_of trace_of state_of fst snd world app report_of].
  rewrite Hout. cbn [report_of].
  repeat split.
  intros m Hin. unfold reset_prefix in Hin.
  repeat (destruct Hin as [Hin | Hin]; [discriminate Hin |]). exact Hin.
Qed.

(** X12. [repl] with an explicitly named, supported terminal on a serial
    board: the terminal is looked up and invoked, and when it returns the
    command still prints the lines that say no terminal could be found. *)
Theorem repl_named_terminal_falls_through
        (terminal : pystr) (s : pstate W) w1 w2 path :
  existsb (pystr_eqb terminal) SUPPORTED_REPL = true ->
  is_telnet (world s) = false ->
  o_find terminal (world s) = (w1, Ok path) ->
  o_invoke_repl terminal path w1 = (w2, Ok tt) ->
  repl (Some terminal) s
  = ({| world := w2; exitfuncs := exitfuncs s |},
     Called (Util_find terminal) :: Called (Util_invoke_repl terminal path)
       :: no_terminal_lines,
     Ok tt).
Proof.
  intros Hsup Htel Hfind Hinv.
  unfold repl. rewrite Hsup.
  unfold bind, ask, util_find, util_invoke_repl, invoke.
  rewrite Htel. simpl. rewrite Hfind. simpl. rewrite Hinv.
  reflexivity.
Qed.

(** X13. [repl] without [--terminal] on a serial board invokes the first
    program of [SUPPORTED_REPL] that is found: the ones before it are
    looked up and skipped, the ones after it are never looked up, and
    nothing is printed. *)
Theorem repl_invokes_first_terminal_found
        (pre post : list pystr) (name path : pystr) (s : pstate W) w1 w2 w3 :
  SUPPORTED_REPL = pre ++ name :: post ->
  is_telnet (world s) = false ->
  all_missing pre (world s) w1 ->
  o_find name w1 = (w2, Ok path) ->
  o_invoke_repl name path w2 = (w3, Ok tt) ->
  repl None s
  = ({| world := w3; exitfuncs := exitfuncs s |},
     List.map (fun n => Called (Util_find n)) pre
       ++ [Called (Util_find name); Called (Util_invoke_repl name path)],
     Ok tt).
Proof.
  intros Hsup Htel Hmiss Hfind Hinv.
  unfold repl, ask. unfold bind at 1. rewrite Htel. rewrite Hsup.
  unfold bind at 1. rewrite (repl_search_skips (name :: post) s Hmiss).
  cbn [repl_search].
  unfold bind, try_except, util_find, util_invoke_repl, invoke, ret,
    state_of, trace_of, result_of.
  simpl. rewrite Hfind. simpl. rewrite Hinv. simpl.
  rewrite ?app_nil_r. reflexivity.
Qed.

(** X14. [repl] without [--terminal] on a serial board where none of the
    supported programs is found, and [repl] with a terminal name that is
    not supported: the command prints its four lines of help and returns
    normally; in the second case it looks nothing up. *)
Theorem repl_without_terminal_prints_help (s : pstate W) :
  (forall w1,
      is_telnet (world s) = false ->
      all_missing SUPPORTED_REPL (world s) w1 ->
      repl None s
      = ({| world := w1; exitfuncs := exitfuncs s |},
         List.map (fun n => Called (Util_find n)) SUPPORTED_REPL
           ++ no_terminal_lines,
         Ok tt))
  /\ (forall terminal,
         existsb (pystr_eqb terminal) SUPPORTED_REPL = false ->
         repl (Some terminal) s = (s, no_terminal_lines, Ok tt)).
Proof.
  split.
  - intros w1 Htel Hmiss.
    unfold repl, ask. unfold bind at 1. rewrite Htel.
    unfold bind at 1.
    pose proof (repl_search_skips [] s Hmiss) as Hs.
    rewrite app_nil_r in Hs. rewrite Hs.
    cbn [repl_search]. unfold ret, state_of, trace_of, result_of.
    cbn [fst snd]. rewrite repl_no_terminal_eq. rewrite app_nil_r.
    reflexivity.
  - intros terminal Hsup. unfold repl. rewrite Hsup.
    apply repl_no_terminal_eq.
Qed.

End ResetAndReplProcess.

(** ** [put], further *)

Section MorePut.

Context {W : Type} {C : Collaborators W}.

(** The remote paths of the [put] calls made, and the local paths read, in
    a trace. *)
Definition put_targets (t : list event) : list pystr :=
  flat_map (fun ev => match ev with
                      | Called (Files_put p _) => [p]
                      | _ => []
                      end) t.

Definition read_paths (t : list event) : list pystr :=
  flat_map (fun ev => match ev with
                      | Called (Open_read p) => [p]
                      | _ => []
                      end) t.

(** A trace made of collaborator calls only: nothing on either stream. *)
Definition is_call (ev : event) : Prop := exists c, ev = Called c.

Lemma is_call_Called c : is_call (Called c).
Proof. now exists c. Qed.

Lemma tame_trace A (P : event -> Prop) (m : M W A) :
  tame P m -> forall s, Forall P (trace_of (m s)).
Proof. intros H s. exact (proj1 (H s)). Qed.

Lemma calls_put_files parent remote_parent fs :
  tame (W:=W) is_call (put_files parent remote_parent fs).
Proof.
  induction fs as [| f rest IH]; simpl; [apply tame_ret |].
  unfold open_read, files_put. tame_steps; try apply is_call_Called. exact IH.
Qed.

Lemma calls_put_walk local remote entries :
  tame (W:=W) is_call (put_walk local remote entries).
Proof.
  induction entries as [| [[parent ds] fs] rest IH]; simpl; [apply tame_ret |].
  apply tame_bind; [apply tame_ask | intros cwd].
  apply tame_bind; [unfold relpath; tame_steps | intros rel].
  apply tame_bind; [| intros _; exact IH].
  apply tame_try_except; [| intros _; apply tame_ret].
  apply tame_bind;
    [unfold files_mkdir; tame_steps; apply is_call_Called | intros _].
  apply calls_put_files.
Qed.

(** X15. An error other than [DirectoryExistsError] aborts a directory
    [put] on the spot: raised by [mkdir], no file of that directory and no
    later directory is touched; raised while reading the first file, the
    directory has been created and nothing of it is uploaded. *)
Theorem put_aborts_on_other_errors
        (local remote parent : pystr) (child_dirs child_files : list pystr)
        (rest : list (pystr * list pystr * list pystr))
        (s : pstate W) rel :
  Posixpath.relpath (getcwd (world s)) parent local = Some rel ->
  (forall w1 e,
      o_mkdir (Posixpath.normpath (Posixpath.join remote [rel])) None (world s)
      = (w1, Raise e) ->
      isinstance e DirectoryExistsError = false ->
      put_walk local remote ((parent, child_dirs, child_files) :: rest) s
      = ({| world := w1; exitfuncs := exitfuncs s |},
         [Called (Files_mkdir (Posixpath.normpath (Posixpath.join remote [rel]))
                              None)],
         Raise e))
  /\ (forall w1 w2 e filename others,
         child_files = filename :: others ->
         o_mkdir (Posixpath.normpath (Posixpath.join remote [rel])) None (world s)
         = (w1, Ok tt) ->
         o_open_read (Posixpath.join parent [filename]) w1 = (w2, Raise e) ->
         isinstance e DirectoryExistsError = false ->
         put_walk local remote ((parent, child_dirs, child_files) :: rest) s
         = ({| world := w2; exitfuncs := exitfuncs s |},
            [ Called (Files_mkdir
                        (Posixpath.normpath (Posixpath.join remote [rel])) None);
              Called (Open_read (Posixpath.join parent [filename])) ],
            Raise e)).
Proof.
  intros Hrel. split.
  - intros w1 e Hmk Hi. simpl. unfold bind at 1. unfold ask.
    unfold bind at 1. unfold relpath. rewrite Hrel. unfold ret at 1.
    unfold bind at 1. unfold try_except, bind at 1, files_mkdir, invoke.
    rewrite Hmk, Hi. reflexivity.
  - intros w1 w2 e filename others -> Hmk Hopen Hi. simpl.
    unfold bind at 1. unfold ask.
    unfold bind at 1. unfold relpath. rewrite Hrel. unfold ret at 1.
    unfold bind at 1. unfold try_except, bind at 1, files_mkdir, invoke.
    rewrite Hmk. simpl. unfold bind at 1, open_read, invoke. simpl.
    rewrite Hopen, Hi. reflexivity.
Qed.

(** X16. [put], [mkdir], [rm], [rmdir] and a [get] into a local file are
    silent: whatever happens, they write nothing to standard output or to
    the error stream, and leave only calls into the collaborators. *)
Theorem transfer_commands_are_silent (s : pstate W) :
  (forall local remote, Forall is_call (trace_of (put local remote s)))
  /\ (forall directory exists_okay,
         Forall is_call (trace_of (mkdir directory exists_okay s)))
  /\ (forall remote_file, Forall is_call (trace_of (rm remote_file s)))
  /\ (forall remote_folder missing_okay,
         Forall is_call (trace_of (rmdir remote_folder missing_okay s)))
  /\ (forall remote_file f,
         Forall is_call (trace_of (get remote_file (Some f) s))).
Proof.
  assert (Hto : forall local r, tame (W:=W) is_call (put_to local r)).
  { intros local r. unfold put_to. apply tame_bind; [apply tame_ask |].
    intros [|].
    - apply tame_bind; [apply tame_ask | intros es; apply calls_put_walk].
    - unfold open_read, files_put. tame_steps; apply is_call_Called. }
  repeat split.
  - intros local remote. apply tame_trace.
    unfold put. destruct remote; [apply Hto |].
    apply tame_bind; [apply tame_ask | intros cwd; apply Hto].
  - intros directory exists_okay. apply tame_trace.
    unfold mkdir, files_mkdir. tame_steps; apply is_call_Called.
  - intros remote_file. apply tame_trace.
    unfold rm, files_rm. tame_steps; apply is_call_Called.
  - intros remote_folder missing_okay. apply tame_trace.
    unfold rmdir, files_rmdir. tame_steps; apply is_call_Called.
  - intros remote_file f. apply tame_trace.
    unfold get, files_get, file_write. tame_steps; apply is_call_Called.
Qed.

End MorePut.

(** ** More facts about [posixpath] *)

Module MorePosixpathFacts.
Import Posixpath.

Lemma split_not_nil p : split p <> [].
Proof.
  destruct p as [| c r]; simpl; [discriminate |].
  destruct (c =? sep)%N; [discriminate |].
  destruct (split r); discriminate.
Qed.

Lemma split_app_sep p q : split (p ++ sep :: q) = split p ++ split q.
Proof.
  induction p as [| c r IH]; simpl.
  - reflexivity.
  - rewrite IH. destruct (c =? sep)%N; [reflexivity |].
    destruct (split r) as [| h t] eqn:Hr; [now apply split_not_nil in Hr |].
    reflexivity.
Qed.

Lemma split_no_sep q : ~ In sep q -> split q = [q].
Proof.
  induction q as [| c r IH]; intros Hn; simpl; [reflexivity |].
  destruct (N.eqb_spec c sep) as [-> | _]; [exfalso; apply Hn; now left |].
  rewrite IH; [reflexivity |]. intros H. apply Hn. now right.
Qed.

Lemma basename_app_sep p f : ~ In sep f -> basename (p ++ sep :: f) = f.
Proof.
  intros Hn. rewrite PosixpathFacts.basename_last, split_app_sep.
  rewrite (split_no_sep f Hn). apply last_last.
Qed.

Lemma ends_with_sep_inv p :
  ends_with_sep p = true -> exists p', p = p' ++ [sep].
Proof.
  unfold ends_with_sep. intros H.
  destruct (rev p) as [| c r] eqn:Hr; [discriminate |].
  apply N.eqb_eq in H. subst c. exists (rev r).
  rewrite <- (rev_involutive p), Hr. reflexivity.
Qed.

Lemma ends_with_sep_app a b : b <> [] -> ends_with_sep (a ++ b) = ends_with_sep b.
Proof.
  intros Hb. unfold ends_with_sep. rewrite rev_app_distr.
  destruct (rev b) as [| c r] eqn:Hr; [| reflexivity].
  exfalso. apply Hb. rewrite <- (rev_involutive b), Hr. reflexivity.
Qed.

(** A file name without a separator is the base name of what [join] makes
    of it. *)
Lemma basename_join dir f : ~ In sep f -> basename (join dir [f]) = f.
Proof.
  intros Hn. unfold join. simpl. unfold join2.
  assert (Habs : isabs f = false).
  { destruct f as [| c r]; [reflexivity |]. simpl.
    destruct (N.eqb_spec c sep) as [-> | _]; [| reflexivity].
    exfalso. apply Hn. now left. }
  rewrite Habs.
  destruct dir as [| d ds] eqn:Hdir.
  - simpl. rewrite PosixpathFacts.basename_last, (split_no_sep f Hn).
    reflexivity.
  - rewrite <- Hdir. simpl (is_empty _).
    assert (Hne : is_empty dir = false) by now subst dir.
    rewrite Hne. simpl.
    destruct (ends_with_sep dir) eqn:He.
    + destruct (ends_with_sep_inv _ He) as [p' ->].
      rewrite <- app_assoc. simpl. now apply basename_app_sep.
    + now apply basename_app_sep.
Qed.

Lemma common_len_refl l : common_len l l = List.length l.
Proof.
  induction l as [| a r IH]; simpl; [reflexivity |].
  now rewrite pystr_eqb_refl, IH.
Qed.

(** The path of a directory relative to itself is [.]. *)
Lemma relpath_of_itself cwd p : p <> [] -> relpath cwd p p = Some curdir.
Proof.
  intros Hp. unfold relpath.
  destruct p as [| c r]; [contradiction |]. simpl (is_empty _).
  cbv zeta. rewrite common_len_refl, Nat.sub_diag, skipn_all. reflexivity.
Qed.

Lemma initial_slashes_app p t :
  p <> [] -> ends_with_sep p = false ->
  initial_slashes (p ++ t) = initial_slashes p.
Proof.
  intros Hp He.
  destruct p as [| a [| b [| c r]]]; [contradiction | | |].
  - unfold ends_with_sep in He. simpl in He. simpl.
    rewrite He. destruct t as [| x [| y t']]; reflexivity.
  - unfold ends_with_sep in He. simpl in He. simpl.
    rewrite He. destruct (a =? sep)%N; destruct t; reflexivity.
  - reflexivity.
Qed.

Lemma skippable_step init comps c :
  c = [] \/ c = curdir -> norm_step init comps c = comps.
Proof. intros [-> | ->]; reflexivity. Qed.

(** A trailing [/] or [/.] does not change what [normpath] returns. *)
Lemma normpath_skips_tail p c :
  p <> [] -> ends_with_sep p = false -> c = [] \/ c = curdir ->
  normpath (p ++ sep :: c) = normpath p.
Proof.
  intros Hp He Hc. unfold normpath.
  destruct p as [| a r] eqn:Hpe; [contradiction |]. rewrite <- Hpe.
  assert (E1 : is_empty (p ++ sep :: c) = false) by now subst p.
  assert (E2 : is_empty p = false) by now subst p.
  rewrite E1, E2.
  assert (Hne : p <> []) by now subst p.
  rewrite (initial_slashes_app (sep :: c) Hne) by now subst p.
  rewrite split_app_sep, fold_left_app.
  assert (Hsplit : split c = [c]).
  { destruct Hc as [-> | ->]; reflexivity. }
  rewrite Hsplit. simpl (fold_left _ [c] _).
  rewrite skippable_step by exact Hc. reflexivity.
Qed.

End MorePosixpathFacts.

Module JoinFacts.
Import Posixpath MorePosixpathFacts.

Lemma initial_slashes_dot q :
  ends_with_sep q = true -> initial_slashes (q ++ curdir) = initial_slashes q.
Proof.
  intros He.
  destruct q as [| a [| b [| c r]]]; [discriminate | | |].
  - unfold ends_with_sep in He. simpl in He. simpl. rewrite He. reflexivity.
  - unfold ends_with_sep in He. simpl in He. simpl. rewrite He.
    destruct (a =? sep)%N; reflexivity.
  - reflexivity.
Qed.

Lemma normpath_dot_after_sep q :
  ends_with_sep q = true -> normpath (q ++ curdir) = normpath q.
Proof.
  intros He. destruct (ends_with_sep_inv _ He) as [p' Hq].
  unfold normpath.
  assert (E1 : is_empty (q ++ curdir) = false).
  { subst q. destruct p'; reflexivity. }
  assert (E2 : is_empty q = false).
  { subst q. destruct p'; reflexivity. }
  rewrite E1, E2, (initial_slashes_dot _ He).
  assert (S1 : split (q ++ curdir) = split p' ++ [curdir]).
  { subst q. rewrite <- app_assoc. simpl. now rewrite split_app_sep. }
  assert (S2 : split q = split p' ++ [[]]).
  { subst q. now rewrite split_app_sep. }
  rewrite S1, S2, !fold_left_app. simpl (fold_left _ [_] _).
  rewrite !skippable_step by (now left + now right).
  reflexivity.
Qed.

(** Joining [.] to a path and normalising gives the normalised path. *)
Lemma normpath_join_dot remote :
  normpath (join remote [curdir]) = normpath remote.
Proof.
  unfold join. simpl. unfold join2. simpl (isabs curdir). cbv iota.
  destruct remote as [| a r] eqn:Hr; [reflexivity |]. rewrite <- Hr.
  assert (Hne : remote <> []) by now subst remote.
  assert (E : is_empty remote = false) by now subst remote.
  rewrite E. simpl.
  destruct (ends_with_sep remote) eqn:He.
  - now apply normpath_dot_after_sep.
  - apply normpath_skips_tail; [exact Hne | exact He | now right].
Qed.

(** A trailing separator on the local path does not change its absolute
    form. *)
Lemma abspath_trailing_sep cwd local :
  local <> [] -> ends_with_sep local = false ->
  abspath cwd (local ++ [sep]) = abspath cwd local.
Proof.
  intros Hne He. unfold abspath.
  assert (Habs : isabs (local ++ [sep]) = isabs local).
  { destruct local; [contradiction | reflexivity]. }
  rewrite Habs. destruct (isabs local) eqn:Ha.
  - apply normpath_skips_tail; [exact Hne | exact He | now left].
  - unfold join. simpl. unfold join2. rewrite Habs, Ha.
    destruct (is_empty cwd || ends_with_sep cwd).
    + rewrite app_assoc. apply normpath_skips_tail; [| | now left].
      * destruct cwd; [exact Hne | discriminate].
      * now rewrite ends_with_sep_app.
    + change (cwd ++ sep :: local ++ [sep])
        with (cwd ++ (sep :: local) ++ [sep]).
      rewrite app_assoc. apply normpath_skips_tail; [| | now left].
      * destruct cwd; discriminate.
      * rewrite ends_with_sep_app by discriminate.
        change (sep :: local) with ([sep] ++ local).
        now rewrite ends_with_sep_app.
Qed.

End JoinFacts.

(** ** Where a [put] uploads *)

Section PutDestinations.

Context {W : Type} {C : Collaborators W}.

Lemma put_files_paths parent remote_parent fs (s : pstate W) :
  exists n,
    put_targets (trace_of (put_files parent remote_parent fs s))
    = firstn n (List.map (fun f => Posixpath.join remote_parent [f]) fs)
    /\ (result_of (put_files parent remote_parent fs s) = Ok tt ->
        put_targets (trace_of (put_files parent remote_parent fs s))
        = List.map (fun f => Posixpath.join remote_parent [f]) fs
        /\ read_paths (trace_of (put_files parent remote_parent fs s))
           = List.map (fun f => Posixpath.join parent [f]) fs).
Proof.
  revert s. induction fs as [| f rest IH]; intros s.
  - exists 0%nat. split; [reflexivity |]. intros _. split; reflexivity.
  - simpl put_files.
    unfold bind, open_read, files_put, invoke, trace_of, result_of.
    destruct (o_open_read (Posixpath.join parent [f]) (world s))
      as [w1 [data | e]]; simpl.
    + destruct (o_put (Posixpath.join remote_parent [f]) data w1)
        as [w2 [[] | e]]; simpl.
      * destruct (IH {| world := w2; exitfuncs := exitfuncs s |})
          as [n [Hn Hok]].
        clear IH. unfold trace_of, result_of in Hn, Hok.
        destruct (put_files parent remote_parent rest _) as [[s3 t3] r3].
        unfold put_targets, read_paths in Hn, Hok |- *.
        simpl in Hn, Hok |- *.
        exists (S n). split.
        { simpl. f_equal. exact Hn. }
        intros Hr. destruct (Hok Hr) as [Ht Hp]. split; f_equal; assumption.
      * exists 1%nat. split; [reflexivity |]. discriminate.
    + exists 0%nat. split; [reflexivity |]. discriminate.
Qed.

(** X17. Inside one directory, [put] makes its uploads in the order of
    [child_files], each to [join(remote_parent, filename)], with no other
    upload in between and none after the first failure; when the
    directory's loop completes, every file was read from
    [join(parent, filename)] and uploaded. *)
Theorem put_files_uploads_in_order
        (parent remote_parent : pystr) (child_files : list pystr)
        (s : pstate W) :
  exists n,
    put_targets (trace_of (put_files parent remote_parent child_files s))
    = firstn n (List.map (fun f => Posixpath.join remote_parent [f])
                         child_files)
    /\ (result_of (put_files parent remote_parent child_files s) = Ok tt ->
        put_targets (trace_of (put_files parent remote_parent child_files s))
        = List.map (fun f => Posixpath.join remote_parent [f]) child_files
        /\ read_paths (trace_of (put_files parent remote_parent child_files s))
           = List.map (fun f => Posixpath.join parent [f]) child_files).
Proof. apply put_files_paths. Qed.

(** X18. Every file uploaded by a directory [put] keeps its name: for file
    names without a separator, the base names of the upload targets are the
    names of [child_files], in order. *)
Theorem put_files_keep_their_names
        (parent remote_parent : pystr) (child_files : list pystr)
        (s : pstate W) :
  Forall (fun f => ~ In Posixpath.sep f) child_files ->
  exists n,
    List.map Posixpath.basename
             (put_targets (trace_of (put_files parent remote_parent child_files s)))
    = firstn n child_files.
Proof.
  intros Hclean.
  destruct (put_files_paths parent remote_parent child_files s) as [n [Hn _]].
  exists n. rewrite Hn, <- firstn_map, map_map. f_equal.
  rewrite <- (map_id child_files) at 2.
  apply map_ext_in. intros f Hin.
  rewrite Forall_forall in Hclean.
  apply MorePosixpathFacts.basename_join. now apply Hclean.
Qed.

(** X19. Without a remote argument, a trailing [/] on the local path does
    not change the destination: [put dir/] goes where [put dir] goes. *)
Theorem put_default_remote_ignores_trailing_slash
        (local : pystr) (s : pstate W) :
  local <> [] ->
  Posixpath.ends_with_sep local = false ->
  put (local ++ [Posixpath.sep]) None s
  = put (local ++ [Posixpath.sep])
        (Some (Posixpath.basename (Posixpath.abspath (getcwd (world s)) local)))
        s.
Proof.
  intros Hne He.
  rewrite <- (JoinFacts.abspath_trailing_sep (getcwd (world s)) Hne He).
  unfold put, bind, ask.
  destruct (put_to _ _ s) as [[s2 t2] r2]. reflexivity.
Qed.

(** X20. In a directory [put], the directory walked first, [local] itself,
    is created on the board at [normpath(remote)]: that [mkdir] is the
    first thing the walk does. *)
Theorem put_creates_top_directory_at_remote
        (local remote : pystr) (child_dirs child_files : list pystr)
        (rest : list (pystr * list pystr * list pystr)) (s : pstate W) :
  local <> [] ->
  exists t,
    trace_of (put_walk local remote ((local, child_dirs, child_files) :: rest) s)
    = Called (Files_mkdir (Posixpath.normpath remote) None) :: t.
Proof.
  intros Hne. simpl. unfold bind at 1. unfold ask.
  unfold bind at 1. unfold relpath.
  rewrite (MorePosixpathFacts.relpath_of_itself (getcwd (world s)) Hne).
  unfold ret at 1. rewrite JoinFacts.normpath_join_dot.
  unfold bind at 1. unfold try_except, bind at 1, files_mkdir, invoke.
  cbn [world].
  destruct (o_mkdir (Posixpath.normpath remote) None (world s))
    as [w1 [[] | e]].
  - destruct (put_files local (Posixpath.normpath remote) child_files _)
      as [[s2 t2] [[] | e2]].
    + destruct (put_walk local remote rest _) as [[s3 t3] r3].
      eexists. reflexivity.
    + destruct (isinstance e2 DirectoryExistsError).
      * cbn. destruct (put_walk local remote rest _) as [[s3 t3] r3].
        eexists. reflexivity.
      * eexists. reflexivity.
  - destruct (isinstance e DirectoryExistsError).
    + cbn. destruct (put_walk local remote rest _) as [[s3 t3] r3].
      eexists. reflexivity.
    + eexists. reflexivity.
Qed.

End PutDestinations.

(** ** The remote tree mirrors the local one *)

Module MirrorFacts.
Import Posixpath MorePosixpathFacts.

(** A directory entry name, as [os.walk] lists them: not empty, not [.] or
    [..], without a separator. *)
Definition entry_name (c : pystr) : Prop :=
  c <> [] /\ c <> curdir /\ c <> pardir /\ ~ In sep c.

(** The components [normpath] keeps of a path. *)
Definition comps (q : pystr) : list pystr :=
  fold_left (norm_step (initial_slashes q)) (split q) [].

(** What [abspath] hands to [normpath]. *)
Definition pre_abs (cwd p : pystr) : pystr :=
  if isabs p then p else join cwd [p].

Lemma pystr_eqb_neq a b : a <> b -> pystr_eqb a b = false.
Proof.
  intros H. destruct (pystr_eqb a b) eqn:E; [| reflexivity].
  apply pystr_eqb_eq in E. contradiction.
Qed.

Lemma entry_name_relative d : entry_name d -> isabs d = false.
Proof.
  intros (Hne & _ & _ & Hs). destruct d as [| c r]; [reflexivity |]. simpl.
  destruct (N.eqb_spec c sep) as [-> | _]; [| reflexivity].
  exfalso. apply Hs. now left.
Qed.

Lemma norm_step_entry init acc d :
  entry_name d -> norm_step init acc d = acc ++ [d].
Proof.
  intros (Hne & Hcur & Hpar & _). unfold norm_step.
  destruct d as [| c r]; [contradiction |]. simpl (is_empty _).
  rewrite (pystr_eqb_neq Hcur), (pystr_eqb_neq Hpar). reflexivity.
Qed.

Lemma join2_nonempty q d : q <> [] -> isabs d = false -> join2 q d <> [].
Proof.
  intros Hq Hd. unfold join2. rewrite Hd.
  destruct q as [| a r]; [contradiction |].
  destruct (is_empty (a :: r) || ends_with_sep (a :: r)); discriminate.
Qed.

Lemma isabs_join2 q d : q <> [] -> isabs d = false -> isabs (join2 q d) = isabs q.
Proof.
  intros Hq Hd. unfold join2. rewrite Hd.
  destruct q as [| a r]; [contradiction |].
  destruct (is_empty (a :: r) || ends_with_sep (a :: r)); reflexivity.
Qed.

Lemma join2_relative_nonempty q d :
  q <> [] -> isabs d = false ->
  join2 q d = if ends_with_sep q then q ++ d else q ++ sep :: d.
Proof.
  intros Hq Hd. unfold join2. rewrite Hd.
  destruct q; [contradiction | reflexivity].
Qed.

Lemma ends_with_sep_join2 q x :
  x <> [] -> isabs x = false -> ends_with_sep (join2 q x) = ends_with_sep x.
Proof.
  intros Hx Ha. unfold join2. rewrite Ha.
  destruct (is_empty q || ends_with_sep q).
  - now apply ends_with_sep_app.
  - rewrite ends_with_sep_app by discriminate.
    change (sep :: x) with ([sep] ++ x). now apply ends_with_sep_app.
Qed.

Lemma join2_assoc a x c :
  x <> [] -> isabs x = false -> isabs c = false ->
  join2 a (join2 x c) = join2 (join2 a x) c.
Proof.
  intros Hx Hax Hc.
  assert (Hz : join2 a x <> []).
  { unfold join2. rewrite Hax.
    destruct (is_empty a || ends_with_sep a); destruct a, x;
      try discriminate; contradiction. }
  rewrite (join2_relative_nonempty c Hz Hc), (ends_with_sep_join2 a Hx Hax).
  rewrite (join2_relative_nonempty c Hx Hc).
  unfold join2 at 1.
  assert (Hrel : forall y, isabs (x ++ y) = false).
  { intros y. destruct x; [contradiction | exact Hax]. }
  unfold join2. rewrite Hax.
  destruct (ends_with_sep x); rewrite Hrel;
    destruct (is_empty a || ends_with_sep a);
    rewrite <- ?app_assoc; reflexivity.
Qed.

Lemma initial_slashes_join2 q d :
  q <> [] -> entry_name d -> initial_slashes (join2 q d) = initial_slashes q.
Proof.
  intros Hq Hd. rewrite (join2_relative_nonempty d Hq (entry_name_relative Hd)).
  destruct (ends_with_sep q) eqn:He.
  - destruct Hd as (Hne & _ & _ & Hs).
    destruct d as [| d0 dr]; [contradiction |].
    assert (Hd0 : (d0 =? sep)%N = false).
    { destruct (N.eqb_spec d0 sep) as [-> | _]; [| reflexivity].
      exfalso. apply Hs. now left. }
    destruct q as [| a [| b [| c r]]]; [contradiction | | |].
    + unfold ends_with_sep in He. simpl in He. simpl. rewrite He, Hd0.
      destruct dr; reflexivity.
    + unfold ends_with_sep in He. simpl in He. simpl. rewrite He, Hd0.
      reflexivity.
    + reflexivity.
  - now apply initial_slashes_app.
Qed.

Lemma comps_join2 q d :
  q <> [] -> entry_name d -> comps (join2 q d) = comps q ++ [d].
Proof.
  intros Hq Hd. unfold comps. rewrite (initial_slashes_join2 Hq Hd).
  rewrite (join2_relative_nonempty d Hq (entry_name_relative Hd)).
  assert (Hsplit : split d = [d]).
  { apply split_no_sep. apply Hd. }
  destruct (ends_with_sep q) eqn:He.
  - destruct (ends_with_sep_inv _ He) as [p' ->].
    rewrite <- app_assoc. simpl (_ ++ d).
    rewrite !split_app_sep, !fold_left_app, Hsplit. simpl.
    now apply norm_step_entry.
  - rewrite split_app_sep, fold_left_app, Hsplit. simpl.
    now apply norm_step_entry.
Qed.

End MirrorFacts.

Module TreeFacts.
Import Posixpath MorePosixpathFacts MirrorFacts.

(** The components [normpath] keeps are not empty and hold no separator. *)
Definition kept (c : pystr) : Prop := c <> [] /\ ~ In sep c.

Lemma split_sep_free q : Forall (fun c => ~ In sep c) (split q).
Proof.
  induction q as [| c r IH]; simpl.
  - constructor; [intros [] | constructor].
  - destruct (N.eqb_spec c sep) as [-> | Hne].
    + constructor; [intros [] | exact IH].
    + destruct (split r) as [| h t]; [repeat constructor; intros [H | []]; auto |].
      inversion IH as [| ? ? Hh Ht]; subst.
      constructor; [| exact Ht].
      intros [H | H]; [auto | exact (Hh H)].
Qed.

Lemma Forall_removelast A (P : A -> Prop) l :
  Forall P l -> Forall P (removelast l).
Proof.
  induction 1 as [| a l Ha Hl IH]; simpl; [constructor |].
  destruct l; [constructor | constructor; assumption].
Qed.

Lemma fold_kept init l acc :
  Forall (fun c => ~ In sep c) l -> Forall kept acc ->
  Forall kept (fold_left (norm_step init) l acc).
Proof.
  intros Hl. revert acc. induction Hl as [| c l Hc _ IH]; intros acc Hacc;
    [exact Hacc |].
  simpl. apply IH. unfold norm_step.
  destruct (is_empty c || pystr_eqb c curdir) eqn:Hskip; [exact Hacc |].
  assert (Hne : c <> []).
  { intros ->. discriminate Hskip. }
  destruct (negb (pystr_eqb c pardir) || (Nat.eqb init 0 && no_comps acc)
            || (negb (no_comps acc) && last_is_pardir acc)).
  - apply Forall_app. split; [exact Hacc |]. repeat constructor; assumption.
  - destruct (negb (no_comps acc)); [now apply Forall_removelast | exact Hacc].
Qed.

Lemma comps_kept q : Forall kept (comps q).
Proof. apply fold_kept; [apply split_sep_free | constructor]. Qed.

Lemma nonempty_comps_sep p : nonempty_comps (sep :: p) = nonempty_comps p.
Proof. reflexivity. Qed.

Lemma nonempty_comps_slashes k p :
  nonempty_comps (repeat sep k ++ p) = nonempty_comps p.
Proof.
  induction k as [| k IH]; [reflexivity |].
  simpl repeat. simpl app. now rewrite nonempty_comps_sep.
Qed.

Lemma nonempty_comps_sep_join cs :
  Forall kept cs -> nonempty_comps (sep_join cs) = cs.
Proof.
  induction 1 as [| c rest [Hne Hs] Hrest IH]; [reflexivity |].
  destruct rest as [| c2 rest'].
  - simpl sep_join. unfold nonempty_comps. rewrite (split_no_sep c Hs).
    destruct c; [contradiction | reflexivity].
  - change (sep_join (c :: c2 :: rest')) with (c ++ sep :: sep_join (c2 :: rest')).
    unfold nonempty_comps in *.
    rewrite split_app_sep, filter_app, (split_no_sep c Hs), IH.
    destruct c; [contradiction | reflexivity].
Qed.

Lemma initial_slashes_abs q :
  isabs q = true -> exists k, initial_slashes q = S k.
Proof.
  destruct q as [| a [| b [| c r]]]; simpl; [discriminate | | |];
    intros ->; [eexists; reflexivity | |].
  - destruct (b =? sep)%N; eexists; reflexivity.
  - destruct ((b =? sep)%N && negb (c =? sep)%N); eexists; reflexivity.
Qed.

(** The non-empty components of a normalised absolute path are the
    components [normpath] kept. *)
Lemma nonempty_comps_normpath q :
  isabs q = true -> nonempty_comps (normpath q) = comps q.
Proof.
  intros Ha. destruct (initial_slashes_abs q Ha) as [k Hk].
  assert (E : is_empty q = false).
  { destruct q; [discriminate | reflexivity]. }
  unfold normpath. rewrite E. cbv zeta. fold (comps q). rewrite Hk.
  change (repeat sep (S k) ++ sep_join (comps q))
    with (sep :: (repeat sep k ++ sep_join (comps q))).
  cbn [is_empty]. rewrite nonempty_comps_sep, nonempty_comps_slashes. apply nonempty_comps_sep_join.
  apply comps_kept.
Qed.

Lemma pre_abs_abs cwd p :
  isabs cwd = true -> isabs (pre_abs cwd p) = true.
Proof.
  intros Hc. unfold pre_abs. destruct (isabs p) eqn:Hp; [exact Hp |].
  unfold join. simpl. unfold join2. rewrite Hp.
  destruct cwd; [discriminate |].
  destruct (is_empty (n :: cwd) || ends_with_sep (n :: cwd)); exact Hc.
Qed.

Lemma pre_abs_join2 cwd p d :
  p <> [] -> isabs d = false ->
  pre_abs cwd (join2 p d) = join2 (pre_abs cwd p) d.
Proof.
  intros Hp Hd. unfold pre_abs. rewrite (isabs_join2 d Hp Hd).
  destruct (isabs p) eqn:Ha; [reflexivity |].
  unfold join. simpl. now apply join2_assoc.
Qed.

Lemma abspath_comps_join2 cwd p d :
  isabs cwd = true -> p <> [] -> entry_name d ->
  nonempty_comps (abspath cwd (join2 p d))
  = nonempty_comps (abspath cwd p) ++ [d].
Proof.
  intros Hc Hp Hd.
  change (abspath cwd (join2 p d)) with (normpath (pre_abs cwd (join2 p d))).
  change (abspath cwd p) with (normpath (pre_abs cwd p)).
  rewrite (pre_abs_join2 cwd d Hp (entry_name_relative Hd)).
  assert (Hq : pre_abs cwd p <> []).
  { intros E. pose proof (@pre_abs_abs cwd p Hc) as H. rewrite E in H.
    discriminate. }
  rewrite !nonempty_comps_normpath.
  - now apply comps_join2.
  - now apply pre_abs_abs.
  - rewrite (isabs_join2 d Hq (entry_name_relative Hd)). now apply pre_abs_abs.
Qed.

(** The components of the absolute form of [join(p, d1, ..., dk)]. *)
Lemma abspath_comps_join cwd ds : forall p,
  isabs cwd = true -> p <> [] -> Forall entry_name ds ->
  nonempty_comps (abspath cwd (join p ds))
  = nonempty_comps (abspath cwd p) ++ ds.
Proof.
  induction ds as [| d ds IH]; intros p Hc Hp Hds.
  - simpl. now rewrite app_nil_r.
  - inversion Hds as [| ? ? Hd Hrest]; subst.
    change (join p (d :: ds)) with (join (join2 p d) ds).
    rewrite IH; [| exact Hc | | exact Hrest].
    + rewrite (@abspath_comps_join2 cwd p d Hc Hp Hd), <- app_assoc.
      reflexivity.
    + apply join2_nonempty; [exact Hp | now apply entry_name_relative].
Qed.

Lemma join_nonempty ds : forall p,
  p <> [] -> Forall entry_name ds -> join p ds <> [].
Proof.
  induction ds as [| d ds IH]; intros p Hp Hds; [exact Hp |].
  inversion Hds as [| ? ? Hd Hrest]; subst.
  change (join p (d :: ds)) with (join (join2 p d) ds).
  apply IH; [| exact Hrest].
  apply join2_nonempty; [exact Hp | now apply entry_name_relative].
Qed.

Lemma common_len_app l m : common_len l (l ++ m) = List.length l.
Proof.
  induction l as [| a r IH]; simpl; [destruct m; reflexivity |].
  now rewrite pystr_eqb_refl, IH.
Qed.

Lemma skipn_length_app (l m : list pystr) : skipn (List.length l) (l ++ m) = m.
Proof. induction l as [| a r IH]; [reflexivity | exact IH]. Qed.

(** [relpath] of a directory below [local], relative to [local], is the
    chain of names that leads to it. *)
Lemma relpath_join cwd local d ds :
  isabs cwd = true -> local <> [] -> Forall entry_name (d :: ds) ->
  relpath cwd (join local (d :: ds)) local = Some (join d ds).
Proof.
  intros Hc Hl Hds.
  pose proof (@join_nonempty (d :: ds) local Hl Hds) as Hne.
  assert (E : is_empty (join local (d :: ds)) = false).
  { destruct (join local (d :: ds)); [contradiction | reflexivity]. }
  unfold relpath. rewrite E. cbv zeta.
  rewrite (@abspath_comps_join cwd (d :: ds) local Hc Hl Hds).
  rewrite common_len_app, Nat.sub_diag, skipn_length_app. reflexivity.
Qed.

Lemma join_relative ds : forall a x,
  x <> [] -> isabs x = false -> Forall entry_name ds ->
  join2 a (join x ds) = join (join2 a x) ds.
Proof.
  induction ds as [| c ds IH]; intros a x Hx Ha Hds; [reflexivity |].
  inversion Hds as [| ? ? Hc Hrest]; subst.
  change (join x (c :: ds)) with (join (join2 x c) ds).
  change (join (join2 a x) (c :: ds)) with (join (join2 (join2 a x) c) ds).
  rewrite IH; [| | | exact Hrest].
  - now rewrite (join2_assoc a c Hx Ha (entry_name_relative Hc)).
  - apply join2_nonempty; [exact Hx | now apply entry_name_relative].
  - rewrite isabs_join2; [exact Ha | exact Hx | now apply entry_name_relative].
Qed.

(** [join(remote, join(d1, ..., dk))] is [join(remote, d1, ..., dk)]. *)
Lemma join_join remote d ds :
  Forall entry_name (d :: ds) ->
  join remote [join d ds] = join remote (d :: ds).
Proof.
  intros Hds. inversion Hds as [| ? ? Hd Hrest]; subst.
  change (join remote [join d ds]) with (join2 remote (join d ds)).
  change (join remote (d :: ds)) with (join (join2 remote d) ds).
  apply join_relative; [apply Hd | now apply entry_name_relative | exact Hrest].
Qed.

End TreeFacts.

Section PutMirror.

Context {W : Type} {C : Collaborators W}.

Lemma put_walk_first_call
      (local remote parent : pystr) (child_dirs child_files : list pystr)
      (rest : list (pystr * list pystr * list pystr)) (s : pstate W) rel :
  Posixpath.relpath (getcwd (world s)) parent local = Some rel ->
  exists t,
    trace_of (put_walk local remote ((parent, child_dirs, child_files) :: rest) s)
    = Called (Files_mkdir (Posixpath.normpath (Posixpath.join remote [rel])) None)
        :: t.
Proof.
  intros Hrel. simpl. unfold bind at 1. unfold ask.
  unfold bind at 1. unfold relpath. rewrite Hrel. unfold ret at 1.
  unfold bind at 1. unfold try_except, bind at 1, files_mkdir, invoke.
  cbn [world].
  destruct (o_mkdir (Posixpath.normpath (Posixpath.join remote [rel])) None
                    (world s)) as [w1 [[] | e]].
  - destruct (put_files parent _ child_files _) as [[s2 t2] [[] | e2]].
    + destruct (put_walk local remote rest _) as [[s3 t3] r3].
      eexists. reflexivity.
    + destruct (isinstance e2 DirectoryExistsError).
      * cbn. destruct (put_walk local remote rest _) as [[s3 t3] r3].
        eexists. reflexivity.
      * eexists. reflexivity.
  - destruct (isinstance e DirectoryExistsError).
    + cbn. destruct (put_walk local remote rest _) as [[s3 t3] r3].
      eexists. reflexivity.
    + eexists. reflexivity.
Qed.

(** X21. A directory [put] mirrors the local tree: for the directory that
    [os.walk] reaches from [local] through the entries [d1, ..., dk], the
    directory made on the board is [normpath(join(remote, d1, ..., dk))],
    and that [mkdir] is the first thing done for it. *)
Theorem put_mirrors_subdirectories
        (local remote d : pystr) (ds child_dirs child_files : list pystr)
        (rest : list (pystr * list pystr * list pystr)) (s : pstate W) :
  Posixpath.isabs (getcwd (world s)) = true ->
  local <> [] ->
  Forall MirrorFacts.entry_name (d :: ds) ->
  exists t,
    trace_of (put_walk local remote
                       ((Posixpath.join local (d :: ds), child_dirs, child_files)
                          :: rest) s)
    = Called (Files_mkdir
                (Posixpath.normpath (Posixpath.join remote (d :: ds))) None)
        :: t.
Proof.
  intros Hcwd Hl Hds.
  rewrite <- (TreeFacts.join_join remote Hds).
  apply put_walk_first_call.
  now apply TreeFacts.relpath_join.
Qed.

End PutMirror.

(** ** The further properties on the simulated machines *)

Module MoreRuns.
Import Sim.

(** A board whose script output is [ok]. *)
Definition chatty : board := {|
  transport_open := true;
  session := Unknown;
  reply := [x6f; x6b];
  remote_dirs := [];
  remote_files := [];
  local_files := [(str "main.py", [x31])];
  local_tree := [];
  cwd := str "/home/user"
|}.

(** A board whose script output is not UTF-8. *)
Definition garbled : board := {|
  transport_open := true;
  session := Unknown;
  reply := [xff];
  remote_dirs := [];
  remote_files := [];
  local_files := [(str "main.py", [x31])];
  local_tree := [];
  cwd := str "/home/user"
|}.

(** The simulated collaborators on a board that survives [reset()]: every
    [exec_] returns. *)
Definition sturdy : Collaborators board := {|
  o_Pyboard := @o_Pyboard _ collaborators;
  o_close := @o_close _ collaborators;
  o_enter_raw_repl := @o_enter_raw_repl _ collaborators;
  o_exit_raw_repl := @o_exit_raw_repl _ collaborators;
  o_exec_ := fun _ b => (b, Ok []);
  o_eval := @o_eval _ collaborators;
  is_telnet := @is_telnet _ collaborators;
  device := @device _ collaborators;
  o_get := @o_get _ collaborators;
  o_mkdir := @o_mkdir _ collaborators;
  o_ls := @o_ls _ collaborators;
  o_put := @o_put _ collaborators;
  o_rm := @o_rm _ collaborators;
  o_rmdir := @o_rmdir _ collaborators;
  o_run := @o_run _ collaborators;
  o_submit := @o_submit _ collaborators;
  o_follow := @o_follow _ collaborators;
  windows_full_port_name := @windows_full_port_name _ collaborators;
  o_find := @o_find _ collaborators;
  o_invoke_repl := @o_invoke_repl _ collaborators;
  SUPPORTED_REPL := @SUPPORTED_REPL _ collaborators;
  red := @red _ collaborators;
  bold := @bold _ collaborators;
  indent := @indent _ collaborators;
  platform_system := @platform_system _ collaborators;
  getcwd := @getcwd _ collaborators;
  isdir := @isdir _ collaborators;
  walk := @walk _ collaborators;
  o_open_read := @o_open_read _ collaborators;
  o_write := @o_write _ collaborators;
  stderr_strips_ansi := @stderr_strips_ansi _ collaborators
|}.

Definition raw (b : board) : board := with_transport b true RawMode.

End MoreRuns.

Lemma unopened_board_is_never_closed_witness :
  @ampy Sim.board Machines.unplugged Runs.port 115200 0%float
        (Cmd_ls (str "/") false false) Sim.board0
  = {| scope_trace :=
         [Called (Pyboard_init
                    (@effective_port Sim.board Machines.unplugged
                                     Sim.board0 Runs.port)
                    115200 0%float)];
       scope_result := Raise Machines.no_such_port;
       exit_trace := [Traceback Machines.no_such_port];
       exit_status := 1%Z;
       final_world := Sim.board0 |}.
Proof.
  apply (@unopened_board_is_never_closed Sim.board Machines.unplugged
           Runs.port 115200%Z 0%float (Cmd_ls (str "/") false false)
           Sim.board0 Sim.board0 Machines.no_such_port).
  reflexivity.
Defined.

Lemma ls_prints_one_line_per_entry_witness :
  ls (str "/") false false Runs.s0
  = ({| world := Sim.opened Sim.board0; exitfuncs := exitfuncs Runs.s0 |},
     Called (Files_ls (str "/") false false)
       :: List.map (fun f => Stdout (f ++ newline)) [str "boot.py"],
     Ok tt).
Proof.
  apply (@ls_prints_one_line_per_entry Sim.board Sim.collaborators
           (str "/") false false Runs.s0 (Sim.opened Sim.board0)
           [str "boot.py"]).
  reflexivity.
Defined.

Lemma get_undecodable_contents_witness :
  get (str "blob.bin") None (Sim.start Machines.binary_board)
  = ({| world := Machines.binary_board;
        exitfuncs := exitfuncs (Sim.start Machines.binary_board) |},
     [Called (Files_get (str "blob.bin"))],
     Raise {| exn_class := UnicodeDecodeError; exn_msg := str "utf-8" |}).
Proof.
  apply (proj1 (@get_undecodable_contents Sim.board Sim.collaborators
                  (str "blob.bin") (Sim.start Machines.binary_board)
                  Machines.binary_board [xff; x00] eq_refl eq_refl)).
Defined.

Lemma get_prints_ascii_verbatim_witness :
  get (str "note.txt") None (Sim.start Machines.binary_board)
  = ({| world := Machines.binary_board;
        exitfuncs := exitfuncs (Sim.start Machines.binary_board) |},
     [ Called (Files_get (str "note.txt"));
       Stdout (List.map Byte.to_N [x6f; x6b] ++ newline) ],
     Ok tt).
Proof.
  apply (@get_prints_ascii_verbatim Sim.board Sim.collaborators
           (str "note.txt") (Sim.start Machines.binary_board)
           Machines.binary_board [x6f; x6b]).
  - reflexivity.
  - repeat constructor.
Defined.

Lemma run_prints_output_verbatim_witness :
  run (str "main.py") false (Sim.start MoreRuns.chatty)
  = ({| world := MoreRuns.chatty;
        exitfuncs := exitfuncs (Sim.start MoreRuns.chatty) |},
     [Called (Files_run (str "main.py") true); Stdout (str "ok")],
     Ok tt).
Proof.
  apply (@run_prints_output_verbatim Sim.board Sim.collaborators
           (str "main.py") (Sim.start MoreRuns.chatty) MoreRuns.chatty
           [x6f; x6b] (str "ok"));
    reflexivity.
Defined.

Lemma run_other_errors_propagate_witness :
  run (str "main.py") false (Sim.start MoreRuns.garbled)
  = ({| world := MoreRuns.garbled;
        exitfuncs := exitfuncs (Sim.start MoreRuns.garbled) |},
     [Called (Files_run (str "main.py") (negb false))],
     Raise {| exn_class := UnicodeDecodeError; exn_msg := str "utf-8" |}).
Proof.
  apply (proj2 (@run_other_errors_propagate Sim.board Sim.collaborators
                  (str "main.py") false (Sim.start MoreRuns.garbled))
               MoreRuns.garbled [xff]);
    reflexivity.
Defined.

Lemma run_reports_serial_failure_witness :
  run (str "main.py") false (Sim.start Sim.board0)
  = ({| world := Sim.board0; exitfuncs := exitfuncs (Sim.start Sim.board0) |},
     [ Called (Files_run (str "main.py") (negb false));
       Stderr (Text (str "Failed to find or read input file: "
                     ++ str "main.py" ++ newline)) ],
     Ok tt).
Proof.
  apply (@run_reports_serial_failure_as_unreadable_file
           Sim.board Sim.collaborators (str "main.py") false
           (Sim.start Sim.board0) Sim.board0 Sim.disconnected);
    reflexivity.
Defined.

Lemma reset_refused_is_reported_witness :
  reset BOOTLOADER (Sim.start Machines.refusing_board)
  = ({| world := MoreRuns.raw Machines.refusing_board;
        exitfuncs := exitfuncs (Sim.start Machines.refusing_board) |},
     [ Called Pyboard_enter_raw_repl;
       Called (Pyboard_exec reset_helpers);
       Called (Pyboard_eval (on_next_reset_call BOOTLOADER));
       Stdout (str "here we are" ++ str " " ++ BytesRepr.repr [x6e; x6f]
               ++ newline);
       Stderr (Raw ([x6e; x6f] ++ [x0a])) ],
     Ok tt).
Proof.
  apply (@reset_refused_is_reported_not_performed Sim.board Sim.collaborators
           BOOTLOADER (Sim.start Machines.refusing_board)
           (MoreRuns.raw Machines.refusing_board)
           (MoreRuns.raw Machines.refusing_board)
           (MoreRuns.raw Machines.refusing_board) [] [x6e; x6f]);
    first [discriminate | reflexivity].
Defined.

Lemma reset_final_step_outcomes_witness :
  result_of (@reset Sim.board MoreRuns.sturdy NORMAL Runs.s0) = Ok tt
  /\ world (state_of (@reset Sim.board MoreRuns.sturdy NORMAL Runs.s0))
     = MoreRuns.raw (Sim.opened Sim.board0).
Proof.
  apply (proj2 (@reset_final_step_outcomes Sim.board MoreRuns.sturdy
                  NORMAL Runs.s0
                  (MoreRuns.raw (Sim.opened Sim.board0))
                  (MoreRuns.raw (Sim.opened Sim.board0))
                  (MoreRuns.raw (Sim.opened Sim.board0)) [] []
                  ltac:(discriminate) eq_refl eq_refl eq_refl eq_refl)
               (MoreRuns.raw (Sim.opened Sim.board0)) []).
  reflexivity.
Defined.

Lemma reset_submitted_only_after_empty_reply_witness :
  NORMAL <> SOFT
  /\ exists w1 w2 w3 out,
      o_enter_raw_repl (world Runs.s0) = (w1, Ok tt)
      /\ o_exec_ reset_helpers w1 = (w2, Ok out)
      /\ o_eval (on_next_reset_call NORMAL) w2 = (w3, Ok []).
Proof.
  apply (@reset_submitted_only_after_empty_reply Sim.board Sim.collaborators
           NORMAL Runs.s0).
  vm_compute. do 4 right. left. reflexivity.
Defined.

Lemma performed_reset_exits_cleanly_witness :
  scope_result (ampy Runs.port 115200 0%float (Cmd_reset NORMAL) Sim.board0)
  = Ok tt
  /\ exit_status (ampy Runs.port 115200 0%float (Cmd_reset NORMAL) Sim.board0)
     = 0%Z
  /\ exit_trace (ampy Runs.port 115200 0%float (Cmd_reset NORMAL) Sim.board0)
     = [Called Pyboard_close]
  /\ (forall m,
         ~ In (Stderr m)
              (scope_trace (ampy Runs.port 115200 0%float (Cmd_reset NORMAL)
                                 Sim.board0)))
  /\ final_world (ampy Runs.port 115200 0%float (Cmd_reset NORMAL) Sim.board0)
     = fst (o_close (Sim.with_transport
                       (MoreRuns.raw (Sim.opened Sim.board0)) false Unknown)).
Proof.
  apply (@performed_reset_exits_cleanly Sim.board Sim.collaborators
           Runs.port 115200%Z 0%float NORMAL
           Sim.board0 (Sim.opened Sim.board0)
           (MoreRuns.raw (Sim.opened Sim.board0))
           (MoreRuns.raw (Sim.opened Sim.board0))
           (MoreRuns.raw (Sim.opened Sim.board0))
           (Sim.with_transport (MoreRuns.raw (Sim.opened Sim.board0))
                               false Unknown)
           [] Sim.disconnected);
    first [discriminate | reflexivity | idtac].
  intros w5 e' H. inversion H. reflexivity.
Defined.

Lemma repl_named_terminal_falls_through_witness :
  @repl Sim.board Machines.with_minicom (Some (str "minicom")) Runs.s0
  = ({| world := Sim.opened Sim.board0; exitfuncs := exitfuncs Runs.s0 |},
     Called (Util_find (str "minicom"))
       :: Called (Util_invoke_repl (str "minicom") (str "/usr/bin/minicom"))
       :: @no_terminal_lines Sim.board Machines.with_minicom,
     Ok tt).
Proof.
  apply (@repl_named_terminal_falls_through Sim.board Machines.with_minicom
           (str "minicom") Runs.s0 (Sim.opened Sim.board0)
           (Sim.opened Sim.board0) (str "/usr/bin/minicom"));
    reflexivity.
Defined.

Lemma repl_invokes_first_terminal_found_witness :
  @repl Sim.board Machines.with_minicom None Runs.s0
  = ({| world := Sim.opened Sim.board0; exitfuncs := exitfuncs Runs.s0 |},
     List.map (fun n => Called (Util_find n)) [str "picocom"]
       ++ [ Called (Util_find (str "minicom"));
            Called (Util_invoke_repl (str "minicom") (str "/usr/bin/minicom")) ],
     Ok tt).
Proof.
  apply (@repl_invokes_first_terminal_found Sim.board Machines.with_minicom
           [str "picocom"] [] (str "minicom") (str "/usr/bin/minicom")
           Runs.s0 (Sim.opened Sim.board0) (Sim.opened Sim.board0)
           (Sim.opened Sim.board0));
    try reflexivity.
  apply (@all_missing_cons Sim.board Machines.with_minicom
           (str "picocom") [] (Sim.opened Sim.board0) (Sim.opened Sim.board0)
           (Sim.opened Sim.board0) (Sim.missing (str "picocom")));
    [reflexivity | reflexivity | apply all_missing_nil].
Defined.

Lemma repl_without_terminal_prints_help_witness :
  repl None Runs.s0
  = ({| world := Sim.opened Sim.board0; exitfuncs := exitfuncs Runs.s0 |},
     List.map (fun n => Called (Util_find n))
              (@SUPPORTED_REPL Sim.board Sim.collaborators)
       ++ @no_terminal_lines Sim.board Sim.collaborators,
     Ok tt).
Proof.
  apply (proj1 (@repl_without_terminal_prints_help Sim.board Sim.collaborators
                  Runs.s0)
               (Sim.opened Sim.board0)).
  - reflexivity.
  - apply (@all_missing_cons Sim.board Sim.collaborators
             (str "picocom") [str "minicom"]
             (Sim.opened Sim.board0) (Sim.opened Sim.board0)
             (Sim.opened Sim.board0) (Sim.missing (str "picocom")));
      [reflexivity | reflexivity |].
    apply (@all_missing_cons Sim.board Sim.collaborators
             (str "minicom") []
             (Sim.opened Sim.board0) (Sim.opened Sim.board0)
             (Sim.opened Sim.board0) (Sim.missing (str "minicom")));
      [reflexivity | reflexivity | apply all_missing_nil].
Defined.

Lemma put_aborts_on_other_errors_witness :
  (put_walk (str "lib") (str "lib") [(str "lib", [], [str "a.py"])]
            (Sim.start Sim.board0)
   = ({| world := Sim.board0; exitfuncs := exitfuncs (Sim.start Sim.board0) |},
      [Called (Files_mkdir
                 (Posixpath.normpath (Posixpath.join (str "lib") [str "."]))
                 None)],
      Raise Sim.disconnected))
  /\ put_walk (str "lib") (str "lib") [(str "lib", [], [str "zz.py"])]
              Runs.fresh
     = ({| world := Sim.with_remote
                      (Sim.with_remote (Sim.opened Sim.board0) [] [])
                      [Posixpath.normpath (Posixpath.join (str "lib") [str "."])]
                      [];
           exitfuncs := exitfuncs Runs.fresh |},
        [ Called (Files_mkdir
                    (Posixpath.normpath (Posixpath.join (str "lib") [str "."]))
                    None);
          Called (Open_read (Posixpath.join (str "lib") [str "zz.py"])) ],
        Raise (Sim.missing (Posixpath.join (str "lib") [str "zz.py"]))).
Proof.
  split.
  - apply (proj1 (@put_aborts_on_other_errors Sim.board Sim.collaborators
                    (str "lib") (str "lib") (str "lib") [] [str "a.py"] []
                    (Sim.start Sim.board0) (str ".") eq_refl)
                 Sim.board0 Sim.disconnected);
      reflexivity.
  - apply (proj2 (@put_aborts_on_other_errors Sim.board Sim.collaborators
                    (str "lib") (str "lib") (str "lib") [] [str "zz.py"] []
                    Runs.fresh (str ".") eq_refl)
                 (Sim.with_remote
                    (Sim.with_remote (Sim.opened Sim.board0) [] [])
                    [Posixpath.normpath (Posixpath.join (str "lib") [str "."])]
                    [])
                 (Sim.with_remote
                    (Sim.with_remote (Sim.opened Sim.board0) [] [])
                    [Posixpath.normpath (Posixpath.join (str "lib") [str "."])]
                    [])
                 (Sim.missing (Posixpath.join (str "lib") [str "zz.py"]))
                 (str "zz.py") []);
      reflexivity.
Defined.

Lemma put_files_uploads_in_order_witness :
  exists n,
    put_targets (trace_of (put_files (str "lib") (str "lib")
                                     [str "a.py"; str "zz.py"] Runs.fresh))
    = firstn n (List.map (fun f => Posixpath.join (str "lib") [f])
                         [str "a.py"; str "zz.py"])
    /\ (result_of (put_files (str "lib") (str "lib")
                             [str "a.py"; str "zz.py"] Runs.fresh) = Ok tt ->
        put_targets (trace_of (put_files (str "lib") (str "lib")
                                         [str "a.py"; str "zz.py"] Runs.fresh))
        = List.map (fun f => Posixpath.join (str "lib") [f])
                   [str "a.py"; str "zz.py"]
        /\ read_paths (trace_of (put_files (str "lib") (str "lib")
                                           [str "a.py"; str "zz.py"] Runs.fresh))
           = List.map (fun f => Posixpath.join (str "lib") [f])
                      [str "a.py"; str "zz.py"]).
Proof.
  apply (@put_files_uploads_in_order Sim.board Sim.collaborators
           (str "lib") (str "lib") [str "a.py"; str "zz.py"] Runs.fresh).
Defined.

Lemma no_sep_a_py : ~ In Posixpath.sep (str "a.py").
Proof. vm_compute. intros [H | [H | [H | [H | H]]]]; try discriminate H. exact H. Qed.

Lemma put_files_keep_their_names_witness :
  exists n,
    List.map Posixpath.basename
             (put_targets (trace_of (put_files (str "lib") (str "lib")
                                               [str "a.py"] Runs.fresh)))
    = firstn n [str "a.py"].
Proof.
  apply (@put_files_keep_their_names Sim.board Sim.collaborators
           (str "lib") (str "lib") [str "a.py"] Runs.fresh).
  constructor; [exact no_sep_a_py | constructor].
Defined.

Lemma put_default_remote_ignores_trailing_slash_witness :
  put (str "lib" ++ [Posixpath.sep]) None Runs.fresh
  = put (str "lib" ++ [Posixpath.sep])
        (Some (Posixpath.basename
                 (Posixpath.abspath (getcwd (world Runs.fresh)) (str "lib"))))
        Runs.fresh.
Proof.
  apply (@put_default_remote_ignores_trailing_slash Sim.board Sim.collaborators
           (str "lib") Runs.fresh).
  - discriminate.
  - reflexivity.
Defined.

Lemma put_creates_top_directory_at_remote_witness :
  exists t,
    trace_of (put_walk (str "lib") (str "pkg/")
                       [(str "lib", [], [str "a.py"])] Runs.fresh)
    = Called (Files_mkdir (Posixpath.normpath (str "pkg/")) None) :: t.
Proof.
  apply (@put_creates_top_directory_at_remote Sim.board Sim.collaborators
           (str "lib") (str "pkg/") [] [str "a.py"] [] Runs.fresh).
  discriminate.
Defined.

Lemma entry_name_sub : MirrorFacts.entry_name (str "sub").
Proof.
  repeat split; try discriminate.
  vm_compute. intros [H | [H | [H | H]]]; try discriminate H. exact H.
Qed.

Lemma put_mirrors_subdirectories_witness :
  exists t,
    trace_of (put_walk (str "lib") (str "pkg")
                       [(Posixpath.join (str "lib") [str "sub"], [], [])]
                       Runs.fresh)
    = Called (Files_mkdir
                (Posixpath.normpath (Posixpath.join (str "pkg") [str "sub"]))
                None) :: t.
Proof.
  apply (@put_mirrors_subdirectories Sim.board Sim.collaborators
           (str "lib") (str "pkg") (str "sub") [] [] [] [] Runs.fresh).
  - reflexivity.
  - discriminate.
  - constructor; [exact entry_name_sub | constructor].
Defined.

Example put_mirrors_nested :
  trace_of (put_walk (str "lib") (str "pkg")
                     [(str "lib/sub/deep", [], [str "a.py"])] Runs.fresh)
  = [ Called (Files_mkdir (str "pkg/sub/deep") None);
      Called (Open_read (str "lib/sub/deep/a.py")) ].
Proof. vm_compute. reflexivity. Qed.

(** ** Where a [put] without a remote argument goes *)

Module DefaultRemote.
Import Posixpath MorePosixpathFacts MirrorFacts TreeFacts.










End DefaultRemote.

Section DefaultRemoteClaim.

Context {W : Type} {C : Collaborators W}.


End DefaultRemoteClaim.


Example put_default_remote_names :
  trace_of (put (str "../user/main.py") None
                (Sim.start (Sim.with_local (Sim.opened Sim.board0)
                                           [(str "../user/main.py", [x33])])))
  = [ Called (Open_read (str "../user/main.py"));
      Called (Files_put (str "main.py") [x33]) ]
  /\ trace_of (put (str "lib") None Runs.fresh)
     = [ Called (Files_mkdir (str "lib") None);
         Called (Open_read (str "lib/a.py"));
         Called (Files_put (str "lib/a.py") [x32]) ].
Proof. split; vm_compute; reflexivity. Qed.

(** ** A [close] that is interrupted *)

Module Interrupts.
Import Sim.

Definition ctrl_c : exn :=
  {| exn_class := KeyboardInterrupt; exn_msg := [] |}.

(** The simulated collaborators, with a [board.close()] during which the
    user presses Ctrl-C. *)
Definition interrupted : Collaborators board := {|
  o_Pyboard := @o_Pyboard _ collaborators;
  o_close := fun b => (b, Raise ctrl_c);
  o_enter_raw_repl := @o_enter_raw_repl _ collaborators;
  o_exit_raw_repl := @o_exit_raw_repl _ collaborators;
  o_exec_ := @o_exec_ _ collaborators;
  o_eval := @o_eval _ collaborators;
  is_telnet := @is_telnet _ collaborators;
  device := @device _ collaborators;
  o_get := @o_get _ collaborators;
  o_mkdir := @o_mkdir _ collaborators;
  o_ls := @o_ls _ collaborators;
  o_put := @o_put _ collaborators;
  o_rm := @o_rm _ collaborators;
  o_rmdir := @o_rmdir _ collaborators;
  o_run := @o_run _ collaborators;
  o_submit := @o_submit _ collaborators;
  o_follow := @o_follow _ collaborators;
  windows_full_port_name := @windows_full_port_name _ collaborators;
  o_find := @o_find _ collaborators;
  o_invoke_repl := @o_invoke_repl _ collaborators;
  SUPPORTED_REPL := @SUPPORTED_REPL _ collaborators;
  red := @red _ collaborators;
  bold := @bold _ collaborators;
  indent := @indent _ collaborators;
  platform_system := @platform_system _ collaborators;
  getcwd := @getcwd _ collaborators;
  isdir := @isdir _ collaborators;
  walk := @walk _ collaborators;
  o_open_read := @o_open_read _ collaborators;
  o_write := @o_write _ collaborators;
  stderr_strips_ansi := @stderr_strips_ansi _ collaborators
|}.

End Interrupts.

(** C6, counterexample.  When [board.close()] raises [KeyboardInterrupt],
    which does not derive from [Exception], the handler does not swallow
    it: the cleanup itself raises. *)
Lemma close_hook_lets_keyboard_interrupt_through :
  isinstance Interrupts.ctrl_c Exception = false
  /\ result_of (@close Sim.board Interrupts.interrupted Runs.s0)
     = Raise Interrupts.ctrl_c
  /\ ~ (result_of (@close Sim.board Interrupts.interrupted Runs.s0) = Ok tt).
Proof.
  split; [reflexivity |]. split; [reflexivity |].
  intros H. discriminate H.
Qed.

Lemma close_hook_swallows_exceptions_witness :
  result_of (close (Sim.start Sim.board0)) = Ok tt.
Proof.
  apply (proj1 (proj2 (proj2 (proj2
           (@close_hook_swallows_exceptions Sim.board Sim.collaborators
              (Sim.start Sim.board0)))))
         Sim.board0 Sim.disconnected);
    reflexivity.
Defined.

Example interrupted_close_is_reported :
  exit_trace (@ampy Sim.board Interrupts.interrupted Runs.port 115200 0%float
                    (Cmd_ls (str "/") false false) Sim.board0)
  = [Called Pyboard_close; Traceback Interrupts.ctrl_c].
Proof. vm_compute. reflexivity. Qed.

Example echo_strips_escape_sequences :
  echo_text true (str "Failed to find or read input file: "
                  ++ [27; 91; 51; 49; 109]%N ++ str "red.py" ++ newline)
  = str "Failed to find or read input file: red.py" ++ newline
  /\ echo_text false ([27; 91; 51; 49; 109]%N ++ str "red.py")
     = [27; 91; 51; 49; 109]%N ++ str "red.py"
  /\ Ansi.strip_ansi ([27; 91; 59; 63]%N ++ str "!x" ++ [27]%N)
     = [27; 91; 59; 63]%N ++ str "!x" ++ [27]%N.
Proof. repeat split; vm_compute; reflexivity. Qed.
